(** * myFlix REST API: a shallow embedding of [src/js/index.js]

    The route callbacks of the Express application are embedded as functions of
    a promise-and-store monad [DB].  The document store (the two Mongoose
    models [Users] and [Movies]) is a pair of lists in insertion order; a
    Mongoose query is a [DB] computation that is fulfilled with a value or
    rejected with an error, and the callbacks are chained with [THEN] and
    [CATCH] in the order the source chains [.then] and [.catch].

    What the source obtains from files that are not part of [index.js]
    ([models.js]: the schemas and [hashPassword]; the packages
    express-validator, mongoose) is the interface [Collaborators] below.
    The route callbacks are modelled from the point where the
    [passport.authenticate] guard has let the request through.  The store
    is the in-memory collection: a rejection comes from a value the schema
    cannot cast, never from a lost connection.  Strings are sequences of
    8-bit characters.  What a call draws from outside the request and the
    store (the identifier of a new document, the salt of the hasher) is an
    argument of the callback.

    The registration and the update are embedded twice: on the request
    that carries its fields in the JSON body (and the route), and, in
    [Full], on the request with all the locations that the validation
    chains read (body, cookies, headers, route parameters, query), where a
    field may be missing from the body or present in several places. *)

From Stdlib Require Import String Ascii List ZArith Bool Arith Lia.
Import ListNotations.
Open Scope list_scope.
Open Scope string_scope.

(** ** Collaborators *)

(** [castObjectId] is the cast of a route parameter to the type of [_id] in
    the movie schema (its canonical form, or nothing when Mongoose raises a
    CastError); [castDate] the cast of [Birthday]; [isEmail] the
    validator of that name; [hashPassword] the static method of the user
    model, with the salt it draws made explicit. *)
Class Collaborators := {
  castObjectId : string -> option string;
  castDate : string -> option Z;
  isEmail : string -> bool;
  Salt : Type;
  hashPassword : Salt -> string -> string
}.

(** ** Documents *)

Module Movie.
Record t := mk {
  _id : string;
  Title : string;
  Description : string
}.
End Movie.

Module User.
Record t := mk {
  _id : string;
  Username : string;
  Password : string;
  Email : string;
  Birthday : option Z;
  FavoriteMovies : list string
}.
(** The document with its [FavoriteMovies] array changed by [f]. *)
Definition onFavoriteMovies (f : list string -> list string) (u : t) : t :=
  mk (_id u) (Username u) (Password u) (Email u) (Birthday u)
    (f (FavoriteMovies u)).
End User.

(** The JSON body of [POST /users] and [PUT /users/:Username]. *)
Module Body.
Record t := mk {
  Username : string;
  Password : string;
  Email : string;
  Birthday : option string
}.
Definition get (field : string) (b : t) : option string :=
  if field =? "Username" then Some (Username b)
  else if field =? "Password" then Some (Password b)
  else if field =? "Email" then Some (Email b)
  else if field =? "Birthday" then Birthday b
  else None.
End Body.

Record Store := {
  users : list User.t;
  movies : list Movie.t
}.

(** ** Promises over the store *)

Definition dquote : string := String (ascii_of_nat 34) EmptyString.

Inductive Error :=
| CastError (kind value path : string).

Definition Error_toString (e : Error) : string :=
  match e with
  | CastError kind value path =>
      "CastError: Cast to " ++ kind ++ " failed for value " ++ dquote ++ value
        ++ dquote ++ " at path " ++ dquote ++ path ++ dquote
  end.

Inductive Outcome (A : Type) :=
| Fulfilled (a : A)
| Rejected (e : Error).
Arguments Fulfilled {A} a.
Arguments Rejected {A} e.

Definition DB (A : Type) : Type := Store -> Outcome A * Store.

Definition resolve {A} (a : A) : DB A := fun s => (Fulfilled a, s).
Definition reject {A} (e : Error) : DB A := fun s => (Rejected e, s).

Definition then_ {A B} (p : DB A) (f : A -> DB B) : DB B :=
  fun s =>
    match p s with
    | (Fulfilled a, s') => f a s'
    | (Rejected e, s') => (Rejected e, s')
    end.

Definition catch_ {A} (p : DB A) (h : Error -> DB A) : DB A :=
  fun s =>
    match p s with
    | (Fulfilled a, s') => (Fulfilled a, s')
    | (Rejected e, s') => h e s'
    end.

Notation "p 'THEN' f" := (then_ p f) (at level 50, left associativity).
Notation "p 'CATCH' h" := (catch_ p h) (at level 50, left associativity).

(** ** Responses *)

Inductive Location := in_body | in_cookies | in_headers | in_params | in_query.

Record ValidationError := {
  value : option string;
  msg : string;
  param : string;
  location : Location
}.

Inductive ResBody :=
| send (text : string)
| json_user (u : User.t)
| json_users (us : list User.t)
| json_errors (errors : list ValidationError).

Record Response := {
  status : nat;
  sent : ResBody
}.

(** [res.status(code).send(text)] and [res.status(code).json(value)]: the
    callback ends with the response it has written. *)
Definition res_status (code : nat) (b : ResBody) : DB Response :=
  resolve {| status := code; sent := b |}.

(** The truthiness of a string, of an array (every array is truthy, the
    empty one too) and JavaScript's [a || b] on strings. *)
Definition truthy (s : string) : bool := negb (s =? "").
Definition truthy_array {A} (l : list A) : bool := true.
Definition js_or (a b : string) : string := if truthy a then a else b.

(** ** Mongoose queries *)

(** An update document, as far as the source writes one.  A [Birthday] that
    the body does not hold is written as null by [$set]. *)
Inductive Update :=
| set_ (Username Password Email : string) (Birthday : option string)
| addToSet_FavoriteMovies (v : string)
| pull_FavoriteMovies (v : string).

(** [$addToSet] appends the value unless the array holds it; [$pull] removes
    every occurrence. *)
Definition addToSet (v : string) (l : list string) : list string :=
  if existsb (String.eqb v) l then l else (l ++ [v])%list.

Definition pull (v : string) (l : list string) : list string :=
  filter (fun x => negb (x =? v)) l.

(** The first document that satisfies the filter is replaced; the result is
    the collection and the document after the update ([new: true]). *)
Fixpoint update_first (p : User.t -> bool) (f : User.t -> User.t)
  (l : list User.t) : list User.t * option User.t :=
  match l with
  | [] => ([], None)
  | u :: l' =>
      if p u then (f u :: l', Some (f u))
      else let (l'', r) := update_first p f l' in (u :: l'', r)
  end.

Fixpoint remove_first (p : User.t -> bool) (l : list User.t)
  : list User.t * option User.t :=
  match l with
  | [] => ([], None)
  | u :: l' =>
      if p u then (l', Some u)
      else let (l'', r) := remove_first p l' in (u :: l'', r)
  end.

Definition castBirthday {C : Collaborators} (b : option string)
  : Error + option Z :=
  match b with
  | None => inr None
  | Some raw =>
      match castDate raw with
      | Some d => inr (Some d)
      | None => inl (CastError "date" raw "Birthday")
      end
  end.

(** Mongoose casts the update document to the schema before it reaches the
    collection: the result is the change applied to the matched document. *)
Definition castUpdate {C : Collaborators} (upd : Update)
  : Error + (User.t -> User.t) :=
  match upd with
  | set_ Username Password Email Birthday =>
      match castBirthday Birthday with
      | inl e => inl e
      | inr d =>
          inr (fun u => User.mk (User._id u) Username Password Email d
                          (User.FavoriteMovies u))
      end
  | addToSet_FavoriteMovies v =>
      match castObjectId v with
      | None => inl (CastError "ObjectId" v "FavoriteMovies")
      | Some oid => inr (User.onFavoriteMovies (addToSet oid))
      end
  | pull_FavoriteMovies v =>
      match castObjectId v with
      | None => inl (CastError "ObjectId" v "FavoriteMovies")
      | Some oid => inr (User.onFavoriteMovies (pull oid))
      end
  end.

Module Movies.
Definition findById {C : Collaborators} (id : string) : DB (option Movie.t) :=
  fun s =>
    match castObjectId id with
    | None => (Rejected (CastError "ObjectId" id "_id"), s)
    | Some oid =>
        (Fulfilled (find (fun m => Movie._id m =? oid) (movies s)), s)
    end.
End Movies.

Module Users.
Definition byUsername (Username : string) (u : User.t) : bool :=
  User.Username u =? Username.

Definition find : DB (list User.t) :=
  fun s => (Fulfilled (users s), s).

Definition findOne (Username : string) : DB (option User.t) :=
  fun s => (Fulfilled (List.find (byUsername Username) (users s)), s).

(** [oid] is the identifier the driver generates for the new document. *)
Definition create {C : Collaborators} (oid : string)
  (Username Password Email : string) (Birthday : option string)
  : DB User.t :=
  fun s =>
    match castBirthday Birthday with
    | inl e => (Rejected e, s)
    | inr d =>
        let user := User.mk oid Username Password Email d [] in
        (Fulfilled user, {| users := (users s ++ [user])%list; movies := movies s |})
    end.

Definition findOneAndUpdate {C : Collaborators} (Username : string)
  (upd : Update) : DB (option User.t) :=
  fun s =>
    match castUpdate upd with
    | inl e => (Rejected e, s)
    | inr f =>
        let (us, r) := update_first (byUsername Username) f (users s) in
        (Fulfilled r, {| users := us; movies := movies s |})
    end.

Definition findOneAndRemove (Username : string) : DB (option User.t) :=
  fun s =>
    let (us, r) := remove_first (byUsername Username) (users s) in
    (Fulfilled r, {| users := us; movies := movies s |}).
End Users.

(** ** express-validator *)

(** The request as the validation chains see it.  [check] reads a field from
    every location of the request; this is the request that carries the
    fields in the JSON body and in the route parameters only.  [Req.t] and
    [Full] below are the request with all its locations. *)
Record Request := {
  params : list (string * string);
  body : Body.t
}.

Fixpoint lookup (field : string) (l : list (string * string)) : option string :=
  match l with
  | [] => None
  | (k, v) :: l' => if k =? field then Some v else lookup field l'
  end.

Definition defined {A} (v : option A) : bool :=
  match v with Some _ => true | None => false end.

(** Every location that holds the field yields an instance, and all of them
    are validated; when none holds it, one undefined instance is reported. *)
Definition selectFields (field : string) (req : Request)
  : list (Location * option string) :=
  let instances :=
    [(in_body, Body.get field (body req)); (in_params, lookup field (params req))] in
  let withValue := filter (fun i => defined (snd i)) instances in
  match withValue with
  | [] => [(in_body, None)]
  | _ => withValue
  end.

(** The validators are those of the validator package, run on the string
    form of the value (the empty string for an undefined one). *)
Definition toString (v : option string) : string :=
  match v with Some s => s | None => "" end.

Definition Validator := string -> bool.

Definition isLength (min : nat) : Validator :=
  fun str => (min <=? String.length str)%nat.

Definition alphanumeric (c : ascii) : bool :=
  let n := nat_of_ascii c in
  (((48 <=? n) && (n <=? 57)) || ((65 <=? n) && (n <=? 90))
   || ((97 <=? n) && (n <=? 122)))%nat.

(** [/^[0-9A-Z]+$/i] *)
Definition isAlphanumeric : Validator :=
  fun str => negb (str =? "") && forallb alphanumeric (list_ascii_of_string str).

Definition isEmpty : Validator :=
  fun str => (String.length str =? 0)%nat.

Definition not_ (v : Validator) : Validator := fun str => negb (v str).

Definition check (field message : string) (v : Validator)
  : Request -> list ValidationError :=
  fun req =>
    flat_map
      (fun i =>
         if v (toString (snd i)) then []
         else [{| value := snd i; msg := message; param := field;
                  location := fst i |}])
      (selectFields field req).

Definition validationResult (chains : list (Request -> list ValidationError))
  (req : Request) : list ValidationError :=
  flat_map (fun chain => chain req) chains.

Definition errors_isEmpty (errors : list ValidationError) : bool :=
  match errors with [] => true | _ => false end.

(** The chains of [POST /users]; [PUT /users/:Username] lists the same four. *)
Definition user_checks {C : Collaborators}
  : list (Request -> list ValidationError) :=
  [ check "Username" "Username must be at least 5 characters" (isLength 5);
    check "Username"
      "Username contains non alphanumeric characters - not allowed"
      isAlphanumeric;
    check "Password" "Password is required" (not_ isEmpty);
    check "Email" "Email does not appear to be valid" isEmail ].

(** ** Route callbacks *)

(** [GET /users] *)
Definition get_users : DB Response :=
  Users.find
  THEN (fun users =>
    if negb (truthy_array users) then res_status 200 (send "No users found")
    else res_status 200 (json_users users))
  CATCH (fun err => res_status 500 (send ("Error: " ++ Error_toString err))).

(** [POST /users].  The chain on [Users.create] is started inside the
    callback of [findOne] and has its own [catch]; the two chains run one
    after the other. *)
Definition post_users {C : Collaborators} (oid : string) (salt : Salt)
  (body : Body.t) : DB Response :=
  let errors := validationResult user_checks {| params := []; body := body |} in
  if negb (errors_isEmpty errors) then res_status 422 (json_errors errors)
  else
    let hashedPassword := hashPassword salt (Body.Password body) in
    Users.findOne (Body.Username body)
    THEN (fun user =>
      match user with
      | Some _ =>
          res_status 409 (send (Body.Username body ++ " already exists"))
      | None =>
          Users.create oid (Body.Username body) hashedPassword
            (Body.Email body) (Body.Birthday body)
          THEN (fun user => res_status 201 (json_user user))
          CATCH (fun error =>
            res_status 500 (send ("Error: " ++ Error_toString error)))
      end)
    CATCH (fun error =>
      res_status 500 (send ("Error: " ++ Error_toString error))).

(** [PUT /users/:Username].  [Username] is the route parameter; the chains
    see it next to the fields of the body. *)
Definition put_user {C : Collaborators} (salt : Salt) (Username : string)
  (body : Body.t) : DB Response :=
  let errors :=
    validationResult user_checks
      {| params := [("Username", Username)]; body := body |} in
  if negb (errors_isEmpty errors) then res_status 422 (json_errors errors)
  else
    let hashedPassword := hashPassword salt (Body.Password body) in
    Users.findOne (Body.Username body)
    THEN (fun user =>
      match user with
      | Some _ =>
          res_status 409 (send (Body.Username body ++ " already exists"))
      | None =>
          Users.findOneAndUpdate Username
            (set_ (Body.Username body) hashedPassword (Body.Email body)
               (Body.Birthday body))
          THEN (fun updatedUser =>
            match updatedUser with
            | None =>
                res_status 404 (send ("User " ++ Username ++ " was not found"))
            | Some u => res_status 200 (json_user u)
            end)
          CATCH (fun err =>
            res_status 500 (send ("Error: " ++ Error_toString err)))
      end)
    CATCH (fun error =>
      res_status 500 (send ("Error: " ++ Error_toString error))).

(** [POST /users/:Username/movies/:MovieID].  The callback of [findById]
    takes no argument: the movie found, or null, is dropped. *)
Definition post_user_movie {C : Collaborators} (Username MovieID : string)
  : DB Response :=
  Movies.findById MovieID
  THEN (fun _ =>
    Users.findOneAndUpdate Username
      (addToSet_FavoriteMovies (js_or MovieID ""))
    THEN (fun user =>
      match user with
      | None => res_status 404 (send ("User " ++ Username ++ " was not found"))
      | Some _ =>
          res_status 201
            (send ("Movie ID " ++ MovieID
                   ++ " was added to favorite movies for user " ++ Username))
      end)
    CATCH (fun err => res_status 500 (send ("Error: " ++ Error_toString err))))
  CATCH (fun _ => res_status 404 (send ("Movie id " ++ MovieID ++ " not found"))).

(** [DELETE /users/:Username/movies/:MovieID] *)
Definition delete_user_movie {C : Collaborators} (Username MovieID : string)
  : DB Response :=
  Movies.findById MovieID
  THEN (fun _ =>
    Users.findOneAndUpdate Username (pull_FavoriteMovies (js_or MovieID ""))
    THEN (fun user =>
      match user with
      | None => res_status 404 (send ("User " ++ Username ++ " was not found"))
      | Some _ =>
          res_status 200
            (send ("Movie ID " ++ MovieID ++ " was deleted from user "
                   ++ Username))
      end)
    CATCH (fun err => res_status 500 (send ("Error: " ++ Error_toString err))))
  CATCH (fun _ => res_status 404 (send ("Movie id " ++ MovieID ++ " not found"))).

(** [DELETE /users/:Username] *)
Definition delete_user (Username : string) : DB Response :=
  Users.findOneAndRemove Username
  THEN (fun user =>
    match user with
    | None => res_status 404 (send (Username ++ " was not found"))
    | Some _ => res_status 200 (send ("User " ++ Username ++ " was deleted."))
    end)
  CATCH (fun err => res_status 500 (send ("Error: " ++ Error_toString err))).

(** ** Login Service and Token Verifier *)

Module Auth.

(** Modelled from the spec: the claims carried by an Access Token
    ([auth.js] and [passport.js], which issue and verify it, are not among
    the sources): subject, issuedAt, expiresAt. *)
Record Claims := {
  subject : string;
  issuedAt : Z;
  expiresAt : Z
}.

(** Modelled from the spec: an Access Token is the claims and a signature
    over them. *)
Record Token := {
  claims : Claims;
  signature : string
}.

(** Modelled from the spec: what arrives in the Authorization header either
    has the structure of a token or has not. *)
Inductive RawToken :=
| garbled (text : string)
| structured (t : Token).

(** Modelled from the spec: the AuthError taxonomy of section 7. *)
Inductive AuthError := InvalidCredentials | MalformedToken | TokenExpired.

(** Modelled from the spec: the signing function of the server's secret and
    the Password Hasher's [verify]. *)
Class Crypto := {
  sign : Claims -> string;
  verify : string -> string -> bool
}.

(** Modelled from the spec: a token is issued with subject = username and an
    expiry fixed at issuance, [ttl] being the configured duration. *)
Definition issue {K : Crypto} (ttl now : Z) (username : string) : Token :=
  let c := {| subject := username; issuedAt := now; expiresAt := now + ttl |} in
  {| claims := c; signature := sign c |}.

(** Modelled from the spec: [authenticate(username, plaintextPassword)] looks
    the user up by exact username, verifies the password against the stored
    digest, and fails with InvalidCredentials in both failure cases. *)
Definition authenticate {K : Crypto} (ttl now : Z) (users : list User.t)
  (username plaintextPassword : string) : Token + AuthError :=
  match List.find (fun u => User.Username u =? username) users with
  | None => inr InvalidCredentials
  | Some u =>
      if verify plaintextPassword (User.Password u)
      then inl (issue ttl now username)
      else inr InvalidCredentials
  end.

(** Modelled from the spec: [authorize(rawToken)] fails with MalformedToken
    if the structure or signature is invalid, with TokenExpired if current
    time >= token expiry, and otherwise returns the subject. *)
Definition authorize {K : Crypto} (now : Z) (rawToken : RawToken)
  : string + AuthError :=
  match rawToken with
  | garbled _ => inr MalformedToken
  | structured t =>
      if signature t =? sign (claims t) then
        if (expiresAt (claims t) <=? now)%Z then inr TokenExpired
        else inl (subject (claims t))
      else inr MalformedToken
  end.

End Auth.

(** ** A concrete set of collaborators, to run the callbacks on examples *)

Definition digit (c : ascii) : bool :=
  let n := nat_of_ascii c in ((48 <=? n) && (n <=? 57))%nat.

Definition hexDigit (c : ascii) : bool :=
  let n := nat_of_ascii c in
  (digit c || ((65 <=? n) && (n <=? 70)) || ((97 <=? n) && (n <=? 102)))%nat.

Definition toLower (c : ascii) : ascii :=
  let n := nat_of_ascii c in
  if ((65 <=? n) && (n <=? 90))%nat then ascii_of_nat (n + 32) else c.

(** An ObjectId given as 24 hexadecimal digits, in lower case. *)
Definition objectIdHex (s : string) : option string :=
  let cs := list_ascii_of_string s in
  if ((List.length cs =? 24)%nat && forallb hexDigit cs)%bool
  then Some (string_of_list_ascii (map toLower cs))
  else None.

(** A date given as epoch milliseconds in decimal digits. *)
Definition epochMillis (s : string) : option Z :=
  let cs := list_ascii_of_string s in
  if (negb (s =? "") && forallb digit cs)%bool
  then Some (fold_left (fun acc c => acc * 10 + Z.of_nat (nat_of_ascii c - 48))
               cs 0)%Z
  else None.

(** local-part, an at sign, a domain: both sides non-empty. *)
Fixpoint atSplit (seen : bool) (cs : list ascii) : bool :=
  match cs with
  | [] => false
  | c :: cs' =>
      if Ascii.eqb c "@"%char
      then (seen && negb (List.length cs' =? 0)%nat
            && negb (existsb (Ascii.eqb "@"%char) cs'))%bool
      else atSplit true cs'
  end.

Definition sample : Collaborators := {|
  castObjectId := objectIdHex;
  castDate := epochMillis;
  isEmail := fun s => atSplit false (list_ascii_of_string s);
  Salt := string;
  hashPassword := fun salt plaintext => "$2b$10$" ++ salt ++ plaintext
|}.

Definition sampleCrypto : Auth.Crypto := {|
  Auth.sign := fun c =>
    "sig(" ++ Auth.subject c ++ ")" ;
  Auth.verify := fun plaintext digest =>
    existsb (fun salt => digest =? "$2b$10$" ++ salt ++ plaintext) ["s1"; "s2"]
|}.

Definition alice : User.t :=
  User.mk "64b000000000000000000001" "alice01" "$2b$10$s1pw" "a@b.com" None [].

Definition heat : Movie.t :=
  Movie.mk "5c3bd189515a081b363cb7e4" "Heat" "A group of professional bank robbers".

Definition store_alice : Store := {| users := [alice]; movies := [heat] |}.

Definition empty_store : Store := {| users := []; movies := [] |}.

Definition alice_body : Body.t := Body.mk "alice01" "pw" "a@b.com" None.

Definition alice_fan : User.t :=
  User.onFavoriteMovies (fun _ => ["5c3bd189515a081b363cb7e4"]) alice.

Definition store_fan : Store := {| users := [alice_fan]; movies := [heat] |}.

(** ** Notions the statements use *)

Definition status_of (r : Outcome Response * Store) : option nat :=
  match fst r with
  | Fulfilled res => Some (status res)
  | Rejected _ => None
  end.

(** The favorites of the document that the queries of the source match for a
    username: the first one in the collection. *)
Definition favoritesOf (Username : string) (s : Store) : option (list string) :=
  option_map User.FavoriteMovies (List.find (Users.byUsername Username) (users s)).

Definition favorites_are_sets (s : Store) : Prop :=
  Forall (fun u => NoDup (User.FavoriteMovies u)) (users s).

Definition usernames_unique (s : Store) : Prop :=
  NoDup (map User.Username (users s)).

Definition taken (Username : string) (s : Store) : Prop :=
  exists u, In u (users s) /\ User.Username u = Username.

(** What a favorites callback ends with: the answer, and the store with the
    users collection [us]. *)
Definition favorites_reply (code : nat) (text : string) (us : list User.t)
  (s : Store) : Outcome Response * Store :=
  (Fulfilled {| status := code; sent := send text |},
   {| users := us; movies := movies s |}).

(** The four conditions of the chains, on the fields of the body. *)
Definition rejected_fields {C : Collaborators} (body : Body.t) : Prop :=
  String.length (Body.Username body) < 5
  \/ (exists c, In c (list_ascii_of_string (Body.Username body))
                /\ alphanumeric c = false)
  \/ Body.Password body = ""
  \/ isEmail (Body.Email body) = false.

(** The record that a registration inserts. *)
Definition registered {C : Collaborators} (oid : string) (salt : Salt)
  (body : Body.t) (d : option Z) : User.t :=
  User.mk oid (Body.Username body) (hashPassword salt (Body.Password body))
    (Body.Email body) d [].

(** The record after [$set] of the four fields of the body. *)
Definition updated {C : Collaborators} (salt : Salt) (body : Body.t)
  (d : option Z) (u : User.t) : User.t :=
  User.mk (User._id u) (Body.Username body)
    (hashPassword salt (Body.Password body)) (Body.Email body) d
    (User.FavoriteMovies u).

(** ** The interface as a whole *)

(** A request to one of the routes that read or write the users. *)
Inductive Call {C : Collaborators} :=
| GET_users
| POST_users (oid : string) (salt : Salt) (body : Body.t)
| PUT_user (salt : Salt) (Username : string) (body : Body.t)
| POST_user_movie (Username MovieID : string)
| DELETE_user_movie (Username MovieID : string)
| DELETE_user (Username : string).

Definition handle {C : Collaborators} (c : Call) : DB Response :=
  match c with
  | GET_users => get_users
  | POST_users oid salt body => post_users oid salt body
  | PUT_user salt Username body => put_user salt Username body
  | POST_user_movie Username MovieID => post_user_movie Username MovieID
  | DELETE_user_movie Username MovieID => delete_user_movie Username MovieID
  | DELETE_user Username => delete_user Username
  end.

(** The stores that a sequence of requests reaches from an empty users
    collection. *)
Inductive reachable {C : Collaborators} : Store -> Prop :=
| reachable_start (ms : list Movie.t) :
    reachable {| users := []; movies := ms |}
| reachable_step (s : Store) (c : Call) :
    reachable s -> reachable (snd (handle c s)).

(** ** Catalog routes *)

(** What the catalog routes send: a text, the array of movies, or a string
    as JSON. *)
Inductive CatalogBody :=
| send_text (text : string)
| json_movies (ms : list Movie.t)
| json_string (str : string).

Record CatalogResponse := {
  catalog_status : nat;
  catalog_sent : CatalogBody
}.

Definition catalog_res (code : nat) (b : CatalogBody) : DB CatalogResponse :=
  resolve {| catalog_status := code; catalog_sent := b |}.

Definition byTitle (Title : string) (m : Movie.t) : bool :=
  Movie.Title m =? Title.

(** [Movies.find()] and [Movies.findOne(filter)]. *)
Definition Movies_find : DB (list Movie.t) :=
  fun s => (Fulfilled (movies s), s).

Definition Movies_findOne (filter : Movie.t -> bool) : DB (option Movie.t) :=
  fun s => (Fulfilled (List.find filter (movies s)), s).

(** [GET /movies] *)
Definition get_movies : DB CatalogResponse :=
  Movies_find
  THEN (fun movies =>
    if negb (truthy_array movies)
    then catalog_res 200 (send_text "No movies found")
    else catalog_res 200 (json_movies movies))
  CATCH (fun err =>
    catalog_res 500 (send_text ("Error: " ++ Error_toString err))).

(** [GET /movies/:Title] *)
Definition get_movie (Title : string) : DB CatalogResponse :=
  Movies_findOne (byTitle Title)
  THEN (fun movie =>
    match movie with
    | None =>
        catalog_res 404 (send_text ("The movie " ++ Title ++ " was not found"))
    | Some m => catalog_res 200 (json_string (Movie.Description m))
    end)
  CATCH (fun err =>
    catalog_res 500 (send_text ("Error: " ++ Error_toString err))).

Definition catalog_status_of (r : Outcome CatalogResponse * Store)
  : option nat :=
  match fst r with
  | Fulfilled res => Some (catalog_status res)
  | Rejected _ => None
  end.

(** ** Further notions the statements use *)

(** The record that a username matches: the first one that bears it. *)
Definition userOf (Username : string) (s : Store) : option User.t :=
  List.find (Users.byUsername Username) (users s).

(** Every stored password is an output of the hasher. *)
Definition passwords_are_digests {C : Collaborators} (s : Store) : Prop :=
  Forall (fun u => exists salt plaintext,
                     User.Password u = hashPassword salt plaintext) (users s).

(** Every favorite is an identifier in the form the schema casts to. *)
Definition favorites_are_ids {C : Collaborators} (s : Store) : Prop :=
  Forall (fun u => Forall (fun v => exists raw, castObjectId raw = Some v)
                     (User.FavoriteMovies u)) (users s).

(** A body whose fields pass the four checks. *)
Definition accepted_fields {C : Collaborators} (body : Body.t) : Prop :=
  isLength 5 (Body.Username body) = true
  /\ isAlphanumeric (Body.Username body) = true
  /\ isEmpty (Body.Password body) = false
  /\ isEmail (Body.Email body) = true.

Definition bob_body : Body.t := Body.mk "bobby" "pw" "bob@b.com" (Some "12345").

(** ** The request in full *)

(** Every location that [check] reads.  A location is the list of its
    members, a name and a string; a name that a location does not hold is
    undefined there.  [Request] above is the request whose cookies, headers
    and query hold none of the validated names and whose body holds
    Username, Password and Email. *)
Module Req.
Record t := mk {
  body : list (string * string);
  cookies : list (string * string);
  headers : list (string * string);
  params : list (string * string);
  query : list (string * string)
}.
End Req.

(** What follows the validation in [POST /users], for a body that holds the
    three fields. *)
Definition post_users_chain {C : Collaborators} (oid : string) (salt : Salt)
  (body : Body.t) : DB Response :=
  let hashedPassword := hashPassword salt (Body.Password body) in
  Users.findOne (Body.Username body)
  THEN (fun user =>
    match user with
    | Some _ =>
        res_status 409 (send (Body.Username body ++ " already exists"))
    | None =>
        Users.create oid (Body.Username body) hashedPassword
          (Body.Email body) (Body.Birthday body)
        THEN (fun user => res_status 201 (json_user user))
        CATCH (fun error =>
          res_status 500 (send ("Error: " ++ Error_toString error)))
    end)
  CATCH (fun error =>
    res_status 500 (send ("Error: " ++ Error_toString error))).

(** What follows the validation in [PUT /users/:Username]. *)
Definition put_user_chain {C : Collaborators} (salt : Salt)
  (Username : string) (body : Body.t) : DB Response :=
  let hashedPassword := hashPassword salt (Body.Password body) in
  Users.findOne (Body.Username body)
  THEN (fun user =>
    match user with
    | Some _ =>
        res_status 409 (send (Body.Username body ++ " already exists"))
    | None =>
        Users.findOneAndUpdate Username
          (set_ (Body.Username body) hashedPassword (Body.Email body)
             (Body.Birthday body))
        THEN (fun updatedUser =>
          match updatedUser with
          | None =>
              res_status 404 (send ("User " ++ Username ++ " was not found"))
          | Some u => res_status 200 (json_user u)
          end)
        CATCH (fun err =>
          res_status 500 (send ("Error: " ++ Error_toString err)))
    end)
  CATCH (fun error =>
    res_status 500 (send ("Error: " ++ Error_toString error))).

Module Full.

Definition toLowerCase (str : string) : string :=
  string_of_list_ascii (map toLower (list_ascii_of_string str)).

(** An instance of a field: where it was read, under which name, and the
    value there. *)
Record Instance := {
  at_location : Location;
  path : string;
  found : option string
}.

Definition locations : list Location :=
  [in_body; in_cookies; in_headers; in_params; in_query].

Definition members (loc : Location) (req : Req.t) : list (string * string) :=
  match loc with
  | in_body => Req.body req
  | in_cookies => Req.cookies req
  | in_headers => Req.headers req
  | in_params => Req.params req
  | in_query => Req.query req
  end.

(** A header is read under the lower-case name. *)
Definition expandField (req : Req.t) (field : string) (loc : Location)
  : Instance :=
  let name := match loc with in_headers => toLowerCase field | _ => field end in
  {| at_location := loc; path := name; found := lookup name (members loc req) |}.

(** Every location that holds the field yields an instance, and all of them
    are validated; when none holds it, the undefined instance of the body is
    the one reported. *)
Definition selectFields (field : string) (req : Req.t) : list Instance :=
  let instances := map (expandField req field) locations in
  let withValue := filter (fun i => defined (found i)) instances in
  match withValue with
  | [] => [expandField req field in_body]
  | _ => withValue
  end.

Definition check (field message : string) (v : Validator)
  : Req.t -> list ValidationError :=
  fun req =>
    flat_map
      (fun i =>
         if v (toString (found i)) then []
         else [{| value := found i; msg := message; param := path i;
                  location := at_location i |}])
      (selectFields field req).

Definition validationResult (chains : list (Req.t -> list ValidationError))
  (req : Req.t) : list ValidationError :=
  flat_map (fun chain => chain req) chains.

Definition user_checks {C : Collaborators}
  : list (Req.t -> list ValidationError) :=
  [ check "Username" "Username must be at least 5 characters" (isLength 5);
    check "Username"
      "Username contains non alphanumeric characters - not allowed"
      isAlphanumeric;
    check "Password" "Password is required" (not_ isEmpty);
    check "Email" "Email does not appear to be valid" isEmail ].

(** [req.body] read as the callbacks read it: the body with its three
    fields, or nothing when one of them is undefined. *)
Definition definedBody (req : Req.t) : option Body.t :=
  match lookup "Username" (Req.body req), lookup "Password" (Req.body req),
        lookup "Email" (Req.body req) with
  | Some Username, Some Password, Some Email =>
      Some (Body.mk Username Password Email (lookup "Birthday" (Req.body req)))
  | _, _, _ => None
  end.

(** [POST /users] on a request in full.  Past the chains with a body that
    lacks one of the three fields (another location held it), what the
    callback does is decided by [hashPassword] and the schema on an
    undefined value, which [models.js] holds: the embedding ends there. *)
Definition post_users {C : Collaborators} (oid : string) (salt : Salt)
  (req : Req.t) (s : Store) : option (Outcome Response * Store) :=
  let errors := validationResult user_checks req in
  if negb (errors_isEmpty errors)
  then Some (res_status 422 (json_errors errors) s)
  else
    match definedBody req with
    | Some body => Some (post_users_chain oid salt body s)
    | None => None
    end.

(** [PUT /users/:Username] on a request in full; the route gives the
    parameter [Username]. *)
Definition put_user {C : Collaborators} (salt : Salt) (req : Req.t)
  (s : Store) : option (Outcome Response * Store) :=
  match lookup "Username" (Req.params req) with
  | None => None
  | Some Username =>
      let errors := validationResult user_checks req in
      if negb (errors_isEmpty errors)
      then Some (res_status 422 (json_errors errors) s)
      else
        match definedBody req with
        | Some body => Some (put_user_chain salt Username body s)
        | None => None
        end
  end.

Definition status_of (r : option (Outcome Response * Store)) : option nat :=
  match r with
  | Some (Fulfilled res, _) => Some (status res)
  | _ => None
  end.

(** Some instance of the field fails the validator. *)
Definition fails (v : Validator) (field : string) (req : Req.t) : Prop :=
  exists i, In i (selectFields field req) /\ v (toString (found i)) = false.

(** Some instance of some field fails its check. *)
Definition rejected {C : Collaborators} (req : Req.t) : Prop :=
  fails (isLength 5) "Username" req
  \/ fails isAlphanumeric "Username" req
  \/ fails (not_ isEmpty) "Password" req
  \/ fails isEmail "Email" req.

(** The body holds a username shorter than five characters or with a
    character that is not alphanumeric, an empty password, or an email that
    [isEmail] does not accept. *)
Definition body_rejected {C : Collaborators} (req : Req.t) : Prop :=
  (exists u, lookup "Username" (Req.body req) = Some u
             /\ (String.length u < 5
                 \/ exists c, In c (list_ascii_of_string u)
                              /\ alphanumeric c = false))
  \/ lookup "Password" (Req.body req) = Some ""
  \/ (exists e, lookup "Email" (Req.body req) = Some e
                /\ isEmail e = false).

(** The request that holds the fields of [body] in its body, the route
    parameters [ps], and nothing else. *)
Definition of_body (ps : list (string * string)) (body : Body.t) : Req.t :=
  Req.mk
    ([("Username", Body.Username body); ("Password", Body.Password body);
      ("Email", Body.Email body)]
     ++ match Body.Birthday body with
        | Some b => [("Birthday", b)]
        | None => []
        end)%list
    [] [] ps [].

End Full.

(** * Properties *)

(** A branch of a callback that answers with another status than the one
    the hypothesis [Hst] names. *)
Ltac other_branch Hr := injection Hr as <- _; discriminate.

(** ** The update primitives *)

Lemma js_or_empty (a : string) : js_or a "" = a.
Proof.
  unfold js_or, truthy. destruct (String.eqb_spec a ""); simpl; congruence.
Qed.

Lemma store_eta (s : Store) : {| users := users s; movies := movies s |} = s.
Proof. now destruct s. Qed.

Lemma addToSet_In (v : string) (l : list string) : In v (addToSet v l).
Proof.
  unfold addToSet. destruct (existsb (String.eqb v) l) eqn:E.
  - apply existsb_exists in E as (x & Hx & Hv).
    apply String.eqb_eq in Hv. now subst.
  - apply in_or_app. right. now left.
Qed.

Lemma addToSet_present (v : string) (l : list string) :
  In v l -> addToSet v l = l.
Proof.
  intros Hin. unfold addToSet.
  replace (existsb (String.eqb v) l) with true; [reflexivity|].
  symmetry. apply existsb_exists. exists v. split; [assumption|].
  apply String.eqb_refl.
Qed.

Lemma addToSet_NoDup (v : string) (l : list string) :
  NoDup l -> NoDup (addToSet v l).
Proof.
  intros Hl. unfold addToSet. destruct (existsb (String.eqb v) l) eqn:E; [assumption|].
  apply NoDup_app; [assumption | repeat constructor; intros [] | ].
  intros x Hx [Hv | []]. subst x.
  assert (existsb (String.eqb v) l = true) as E'; [|congruence].
  apply existsb_exists. exists v. split; [assumption | apply String.eqb_refl].
Qed.

Lemma pull_In (v x : string) (l : list string) :
  In x (pull v l) <-> In x l /\ x <> v.
Proof.
  unfold pull. rewrite filter_In, negb_true_iff, String.eqb_neq. reflexivity.
Qed.

Lemma pull_absent (v : string) (l : list string) : ~ In v l -> pull v l = l.
Proof.
  intros Hv. unfold pull. induction l as [|x l IH]; simpl; [reflexivity|].
  destruct (String.eqb_spec x v) as [->|Hne]; simpl.
  - exfalso. apply Hv. now left.
  - f_equal. apply IH. intros Hin. apply Hv. now right.
Qed.

Lemma pull_addToSet (v : string) (l : list string) :
  pull v (addToSet v l) = pull v l.
Proof.
  unfold addToSet. destruct (existsb (String.eqb v) l); [reflexivity|].
  unfold pull. rewrite filter_app. simpl. rewrite String.eqb_refl. simpl.
  apply app_nil_r.
Qed.

Lemma update_first_result (p : User.t -> bool) (f : User.t -> User.t)
  (l : list User.t) :
  snd (update_first p f l) = option_map f (List.find p l).
Proof.
  induction l as [|u l IH]; simpl; [reflexivity|].
  destruct (p u); simpl; [reflexivity|].
  destruct (update_first p f l); simpl in *. assumption.
Qed.

Lemma update_first_split (p : User.t -> bool) (f : User.t -> User.t)
  (l : list User.t) (u : User.t) :
  List.find p l = Some u ->
  exists l1 l2,
    l = (l1 ++ u :: l2)%list /\ Forall (fun x => p x = false) l1 /\ p u = true /\
    fst (update_first p f l) = (l1 ++ f u :: l2)%list.
Proof.
  induction l as [|x l IH]; simpl; [discriminate|].
  destruct (p x) eqn:Px.
  - intros [= ->]. exists [], l. repeat split; auto.
  - intros Hf. destruct (IH Hf) as (l1 & l2 & -> & Hl1 & Pu & Hup).
    exists (x :: l1), l2. destruct (update_first p f (l1 ++ u :: l2)).
    simpl in *. subst. repeat split; auto.
Qed.

Lemma update_first_missing (p : User.t -> bool) (f : User.t -> User.t)
  (l : list User.t) :
  List.find p l = None -> fst (update_first p f l) = l.
Proof.
  induction l as [|x l IH]; simpl; [reflexivity|].
  destruct (p x); [discriminate|]. intros Hf.
  specialize (IH Hf). destruct (update_first p f l). simpl in *. now subst.
Qed.

Lemma update_first_fixed (p : User.t -> bool) (f : User.t -> User.t)
  (l : list User.t) (u : User.t) :
  List.find p l = Some u -> f u = u -> fst (update_first p f l) = l.
Proof.
  intros Hf Hu. destruct (update_first_split p f l u Hf) as (l1 & l2 & -> & _ & _ & ->).
  now rewrite Hu.
Qed.

Lemma update_first_find (p : User.t -> bool) (f : User.t -> User.t)
  (l : list User.t) (u : User.t) :
  List.find p l = Some u -> p (f u) = true ->
  List.find p (fst (update_first p f l)) = Some (f u).
Proof.
  induction l as [|x l IH]; simpl; [discriminate|].
  destruct (p x) eqn:Px.
  - intros [= ->] Hp. simpl. now rewrite Hp.
  - intros Hf Hp. specialize (IH Hf Hp).
    destruct (update_first p f l). simpl in *. now rewrite Px.
Qed.

Lemma update_first_Forall (P : User.t -> Prop) (p : User.t -> bool)
  (f : User.t -> User.t) (l : list User.t) :
  (forall u, P u -> P (f u)) -> Forall P l -> Forall P (fst (update_first p f l)).
Proof.
  intros Hf. induction 1 as [|x l Hx Hl IH]; simpl; [constructor|].
  destruct (p x).
  - simpl. constructor; auto.
  - destruct (update_first p f l). simpl in *. constructor; auto.
Qed.

Lemma onFavoriteMovies_fixed (f : list string -> list string) (u : User.t) :
  f (User.FavoriteMovies u) = User.FavoriteMovies u ->
  User.onFavoriteMovies f u = u.
Proof. unfold User.onFavoriteMovies. intros ->. now destruct u. Qed.

(** ** The favorites callbacks, branch by branch *)

Lemma favorites_callback {C : Collaborators} (Username MovieID : string)
  (mk_upd : string -> Update) (f : string -> list string -> list string)
  (code : nat) (done : string) (s : Store) :
  (forall v, castUpdate (mk_upd v) =
             match castObjectId v with
             | None => inl (CastError "ObjectId" v "FavoriteMovies")
             | Some oid => inr (User.onFavoriteMovies (f oid))
             end) ->
  (Movies.findById MovieID
   THEN (fun _ =>
     Users.findOneAndUpdate Username (mk_upd (js_or MovieID ""))
     THEN (fun user =>
       match user with
       | None => res_status 404 (send ("User " ++ Username ++ " was not found"))
       | Some _ => res_status code (send done)
       end)
     CATCH (fun err => res_status 500 (send ("Error: " ++ Error_toString err))))
   CATCH (fun _ => res_status 404 (send ("Movie id " ++ MovieID ++ " not found"))))
    s
  = match castObjectId MovieID with
    | None =>
        favorites_reply 404 ("Movie id " ++ MovieID ++ " not found") (users s) s
    | Some oid =>
        let us :=
          fst (update_first (Users.byUsername Username)
                 (User.onFavoriteMovies (f oid)) (users s)) in
        match List.find (Users.byUsername Username) (users s) with
        | None =>
            favorites_reply 404 ("User " ++ Username ++ " was not found") us s
        | Some _ => favorites_reply code done us s
        end
    end.
Proof.
  intros Hcast. unfold then_, catch_, Movies.findById, Users.findOneAndUpdate.
  rewrite js_or_empty, Hcast.
  destruct (castObjectId MovieID) as [oid|];
    [|unfold favorites_reply, res_status, resolve; now rewrite store_eta].
  simpl.
  pose proof (update_first_result (Users.byUsername Username)
                (User.onFavoriteMovies (f oid)) (users s)) as Hr.
  destruct (update_first _ _ (users s)) as [us r]. simpl in *. subst r.
  destruct (List.find _ (users s)); reflexivity.
Qed.

Lemma post_user_movie_eq {C : Collaborators} (Username MovieID : string)
  (s : Store) :
  post_user_movie Username MovieID s
  = match castObjectId MovieID with
    | None =>
        favorites_reply 404 ("Movie id " ++ MovieID ++ " not found") (users s) s
    | Some oid =>
        let us :=
          fst (update_first (Users.byUsername Username)
                 (User.onFavoriteMovies (addToSet oid)) (users s)) in
        match List.find (Users.byUsername Username) (users s) with
        | None =>
            favorites_reply 404 ("User " ++ Username ++ " was not found") us s
        | Some _ =>
            favorites_reply 201
              ("Movie ID " ++ MovieID ++ " was added to favorite movies for user "
               ++ Username) us s
        end
    end.
Proof.
  unfold post_user_movie.
  apply (favorites_callback Username MovieID addToSet_FavoriteMovies addToSet).
  reflexivity.
Qed.

Lemma delete_user_movie_eq {C : Collaborators} (Username MovieID : string)
  (s : Store) :
  delete_user_movie Username MovieID s
  = match castObjectId MovieID with
    | None =>
        favorites_reply 404 ("Movie id " ++ MovieID ++ " not found") (users s) s
    | Some oid =>
        let us :=
          fst (update_first (Users.byUsername Username)
                 (User.onFavoriteMovies (pull oid)) (users s)) in
        match List.find (Users.byUsername Username) (users s) with
        | None =>
            favorites_reply 404 ("User " ++ Username ++ " was not found") us s
        | Some _ =>
            favorites_reply 200
              ("Movie ID " ++ MovieID ++ " was deleted from user " ++ Username)
              us s
        end
    end.
Proof.
  unfold delete_user_movie.
  apply (favorites_callback Username MovieID pull_FavoriteMovies pull).
  reflexivity.
Qed.

(** Whatever the catalog holds, the callback answers and updates alike: the
    document that [findById] resolves with is never looked at. *)
Lemma post_user_movie_ignores_catalog {C : Collaborators}
  (Username MovieID : string) (us : list User.t) (ms ms' : list Movie.t) :
  let r := post_user_movie Username MovieID {| users := us; movies := ms |} in
  let r' := post_user_movie Username MovieID {| users := us; movies := ms' |} in
  fst r = fst r' /\ users (snd r) = users (snd r').
Proof.
  simpl. rewrite !post_user_movie_eq. simpl.
  destruct (castObjectId MovieID); [|split; reflexivity].
  destruct (List.find _ us); split; reflexivity.
Qed.

(** An identifier the schema cannot cast is answered with 404 and the store
    is left as it was: the scenario addFavorite("alice01", "nonexistent-id"). *)
Lemma post_user_movie_uncastable {C : Collaborators}
  (Username MovieID : string) (s : Store) :
  castObjectId MovieID = None ->
  post_user_movie Username MovieID s =
    (Fulfilled {| status := 404;
                  sent := send ("Movie id " ++ MovieID ++ " not found") |}, s).
Proof.
  intros Hc. rewrite post_user_movie_eq, Hc. unfold favorites_reply.
  now rewrite store_eta.
Qed.

(** C1: where no movie with identifier movieId exists in the catalog,
    addFavorite should fail with 404 and leave the favorites unchanged.  At a
    well-formed identifier that no movie of the catalog bears, [findById]
    resolves with no document, and the callback answers 201 and adds the
    identifier to the favorites of the user. *)
Theorem post_user_movie_absent_movie :
  let MovieID := "0123456789abcdef01234567" in
  let r := post_user_movie (C := sample) "alice01" MovieID store_alice in
  Movies.findById (C := sample) MovieID store_alice
    = (Fulfilled None, store_alice)
  /\ status_of r = Some 201
  /\ favoritesOf "alice01" store_alice = Some []
  /\ favoritesOf "alice01" (snd r) = Some [MovieID].
Proof. vm_compute. repeat split; reflexivity. Qed.

Lemma post_user_movie_found {C : Collaborators}
  (Username MovieID oid : string) (s : Store) (u : User.t) :
  castObjectId MovieID = Some oid ->
  List.find (Users.byUsername Username) (users s) = Some u ->
  status_of (post_user_movie Username MovieID s) = Some 201
  /\ favoritesOf Username (snd (post_user_movie Username MovieID s))
     = Some (addToSet oid (User.FavoriteMovies u))
  /\ movies (snd (post_user_movie Username MovieID s)) = movies s.
Proof.
  intros Hc Hu. rewrite post_user_movie_eq, Hc. simpl. rewrite Hu.
  unfold favorites_reply, status_of, favoritesOf. simpl.
  rewrite (update_first_find _ _ _ u Hu).
  - repeat split; reflexivity.
  - apply find_some in Hu. apply Hu.
Qed.

Lemma post_user_movie_sets {C : Collaborators} (Username MovieID : string)
  (s : Store) :
  favorites_are_sets s ->
  favorites_are_sets (snd (post_user_movie Username MovieID s)).
Proof.
  unfold favorites_are_sets. intros Hs. rewrite post_user_movie_eq.
  destruct (castObjectId MovieID) as [oid|]; [|exact Hs]. simpl.
  assert (Forall (fun u => NoDup (User.FavoriteMovies u))
            (fst (update_first (Users.byUsername Username)
                    (User.onFavoriteMovies (addToSet oid)) (users s)))) as H.
  { apply update_first_Forall; [|exact Hs].
    intros u Hu. simpl. now apply addToSet_NoDup. }
  destruct (List.find _ (users s)); exact H.
Qed.

Lemma post_user_movie_present {C : Collaborators}
  (Username MovieID oid : string) (s : Store) (u : User.t) :
  castObjectId MovieID = Some oid ->
  List.find (Users.byUsername Username) (users s) = Some u ->
  In oid (User.FavoriteMovies u) ->
  post_user_movie Username MovieID s
    = favorites_reply 201
        ("Movie ID " ++ MovieID ++ " was added to favorite movies for user "
         ++ Username) (users s) s.
Proof.
  intros Hc Hu Hin.
  rewrite post_user_movie_eq, Hc. simpl. rewrite Hu.
  rewrite (update_first_fixed _ _ _ u Hu); [reflexivity|].
  apply onFavoriteMovies_fixed. now apply addToSet_present.
Qed.

(** C3: for a movie identifier that the favorites of the user already hold,
    addFavorite answers 201 (no error) and leaves the store, hence the
    favorites, as they were; and addFavorite keeps every favorites array free
    of duplicates. *)
Theorem post_user_movie_idempotent {C : Collaborators}
  (Username MovieID oid : string) (s : Store) (u : User.t) :
  castObjectId MovieID = Some oid ->
  List.find (Users.byUsername Username) (users s) = Some u ->
  In oid (User.FavoriteMovies u) ->
  post_user_movie Username MovieID s
    = (Fulfilled
         {| status := 201;
            sent := send ("Movie ID " ++ MovieID
                          ++ " was added to favorite movies for user "
                          ++ Username) |}, s)
  /\ (forall Username' MovieID' s',
        favorites_are_sets s' ->
        favorites_are_sets (snd (post_user_movie Username' MovieID' s'))).
Proof.
  intros Hc Hu Hin. split; [|intros; now apply post_user_movie_sets].
  rewrite (post_user_movie_present Username MovieID oid s u Hc Hu Hin).
  unfold favorites_reply. now rewrite store_eta.
Qed.

Lemma post_user_movie_idempotent_witness :
  castObjectId (Collaborators := sample) "5C3BD189515A081B363CB7E4"
    = Some "5c3bd189515a081b363cb7e4"
  /\ post_user_movie (C := sample) "alice01" "5C3BD189515A081B363CB7E4" store_fan
     = (Fulfilled
          {| status := 201;
             sent := send "Movie ID 5C3BD189515A081B363CB7E4 was added to favorite movies for user alice01" |},
        store_fan).
Proof.
  split; [reflexivity|].
  apply (post_user_movie_idempotent (C := sample) "alice01"
           "5C3BD189515A081B363CB7E4" "5c3bd189515a081b363cb7e4" store_fan
           alice_fan); [reflexivity | reflexivity | left; reflexivity].
Defined.

(** X13: Calling addFavorite a second time with the same arguments repeats the
    answer of the first call and changes nothing. *)
Lemma post_user_movie_twice {C : Collaborators} (Username MovieID : string)
  (s : Store) :
  let r := post_user_movie Username MovieID s in
  post_user_movie Username MovieID (snd r) = (fst r, snd r).
Proof.
  simpl. destruct (castObjectId MovieID) as [oid|] eqn:Hc.
  - destruct (List.find (Users.byUsername Username) (users s)) as [u|] eqn:Hu.
    + destruct (post_user_movie_found Username MovieID oid s u Hc Hu)
        as (_ & Hfav & _).
      unfold favoritesOf in Hfav.
      destruct (List.find _ (users (snd (post_user_movie Username MovieID s))))
        as [u'|] eqn:Hu'; [|discriminate]. injection Hfav as Hfav.
      rewrite (post_user_movie_present Username MovieID oid _ u' Hc Hu').
      * rewrite post_user_movie_eq, Hc. simpl. now rewrite Hu.
      * rewrite Hfav. apply addToSet_In.
    + rewrite (post_user_movie_eq Username MovieID s), Hc. simpl. rewrite Hu.
      unfold favorites_reply. simpl.
      rewrite (update_first_missing _ _ _ Hu), store_eta.
      rewrite post_user_movie_eq, Hc. simpl. rewrite Hu.
      unfold favorites_reply. now rewrite (update_first_missing _ _ _ Hu), store_eta.
  - now rewrite !post_user_movie_uncastable.
Qed.

(** ** Scenarios of the specification *)

(** Registering alice01 / pw / a@b.com answers 201; registering the same
    username again answers 409. *)
Example register_twice :
  let r1 := post_users (C := sample) "64b000000000000000000001" "s1"
              alice_body empty_store in
  let r2 := post_users (C := sample) "64b000000000000000000002" "s2"
              alice_body (snd r1) in
  status_of r1 = Some 201
  /\ snd r1 = {| users := [alice]; movies := [] |}
  /\ status_of r2 = Some 409
  /\ snd r2 = snd r1.
Proof. repeat split; reflexivity. Qed.

(** addFavorite("alice01", "nonexistent-id") answers 404, favorites
    unchanged: the identifier is not one the schema can cast. *)
Example add_nonexistent_id :
  post_user_movie (C := sample) "alice01" "nonexistent-id" store_alice
  = (Fulfilled
       {| status := 404; sent := send "Movie id nonexistent-id not found" |},
     store_alice).
Proof. reflexivity. Qed.

(** A username of three characters in the route is rejected by the chains
    of the update, whatever the body. *)
Example update_short_route_username :
  status_of (put_user (C := sample) "s2" "bob"
               (Body.mk "bobby" "pw" "bob@b.com" None) store_alice)
  = Some 422.
Proof. reflexivity. Qed.

(** ** Removing a favorite *)

Lemma findById_found {C : Collaborators} (MovieID : string) (s : Store)
  (m : Movie.t) :
  Movies.findById MovieID s = (Fulfilled (Some m), s) ->
  castObjectId MovieID = Some (Movie._id m) /\ In m (movies s).
Proof.
  unfold Movies.findById. destruct (castObjectId MovieID) as [oid|]; [|discriminate].
  intros [= Hf]. apply find_some in Hf as [Hin Hid].
  apply String.eqb_eq in Hid. now subst.
Qed.

Lemma delete_user_movie_found {C : Collaborators}
  (Username MovieID oid : string) (s : Store) (u : User.t) :
  castObjectId MovieID = Some oid ->
  List.find (Users.byUsername Username) (users s) = Some u ->
  status_of (delete_user_movie Username MovieID s) = Some 200
  /\ favoritesOf Username (snd (delete_user_movie Username MovieID s))
     = Some (pull oid (User.FavoriteMovies u))
  /\ movies (snd (delete_user_movie Username MovieID s)) = movies s.
Proof.
  intros Hc Hu. rewrite delete_user_movie_eq, Hc. simpl. rewrite Hu.
  unfold favorites_reply, status_of, favoritesOf. simpl.
  rewrite (update_first_find _ _ _ u Hu).
  - repeat split; reflexivity.
  - apply find_some in Hu. apply Hu.
Qed.

(** Removing an identifier that the favorites do not hold: 200, and the
    store is the one before the call. *)
Lemma delete_user_movie_absent {C : Collaborators}
  (Username MovieID oid : string) (s : Store) (u : User.t) :
  castObjectId MovieID = Some oid ->
  List.find (Users.byUsername Username) (users s) = Some u ->
  ~ In oid (User.FavoriteMovies u) ->
  delete_user_movie Username MovieID s
    = (Fulfilled
         {| status := 200;
            sent := send ("Movie ID " ++ MovieID ++ " was deleted from user "
                          ++ Username) |}, s).
Proof.
  intros Hc Hu Hin. rewrite delete_user_movie_eq, Hc. simpl. rewrite Hu.
  unfold favorites_reply.
  rewrite (update_first_fixed _ _ _ u Hu); [now rewrite store_eta|].
  apply onFavoriteMovies_fixed. now apply pull_absent.
Qed.

(** C4: for an existing user and an existing movie, addFavorite followed by
    removeFavorite answers 200 and leaves favorites that exclude the movie
    identifier; and removeFavorite of an identifier that the favorites do not
    hold answers 200 and leaves the store unchanged. *)
Theorem delete_user_movie_after_post {C : Collaborators}
  (Username MovieID : string) (s : Store) (m : Movie.t) (u : User.t) :
  Movies.findById MovieID s = (Fulfilled (Some m), s) ->
  List.find (Users.byUsername Username) (users s) = Some u ->
  let s1 := snd (post_user_movie Username MovieID s) in
  let r2 := delete_user_movie Username MovieID s1 in
  (status_of r2 = Some 200
   /\ favoritesOf Username (snd r2)
      = Some (pull (Movie._id m) (User.FavoriteMovies u))
   /\ ~ In (Movie._id m) (pull (Movie._id m) (User.FavoriteMovies u)))
  /\ (~ In (Movie._id m) (User.FavoriteMovies u) ->
      delete_user_movie Username MovieID s
        = (Fulfilled
             {| status := 200;
                sent := send ("Movie ID " ++ MovieID ++ " was deleted from user "
                              ++ Username) |}, s)).
Proof.
  intros Hm Hu. apply findById_found in Hm as [Hc _]. simpl. split.
  - destruct (post_user_movie_found Username MovieID _ s u Hc Hu)
      as (_ & Hfav & _).
    unfold favoritesOf in Hfav.
    destruct (List.find _ (users (snd (post_user_movie Username MovieID s))))
      as [u1|] eqn:Hu1; [|discriminate]. injection Hfav as Hfav.
    destruct (delete_user_movie_found Username MovieID _ _ u1 Hc Hu1)
      as (Hst & Hfav2 & _).
    rewrite Hfav, pull_addToSet in Hfav2. repeat split; try assumption.
    rewrite pull_In. intros [_ Hne]. now apply Hne.
  - intros Hin.
    now apply (delete_user_movie_absent Username MovieID (Movie._id m) s u).
Qed.

Lemma delete_user_movie_after_post_witness :
  let MovieID := "5C3BD189515A081B363CB7E4" in
  Movies.findById (C := sample) MovieID store_alice
    = (Fulfilled (Some heat), store_alice)
  /\ favoritesOf "alice01" (snd (post_user_movie (C := sample) "alice01" MovieID store_alice))
     = Some [Movie._id heat]
  /\ favoritesOf "alice01"
       (snd (delete_user_movie (C := sample) "alice01" MovieID
               (snd (post_user_movie (C := sample) "alice01" MovieID store_alice))))
     = Some (pull (Movie._id heat) (User.FavoriteMovies alice)).
Proof.
  simpl. split; [reflexivity|]. split; [reflexivity|].
  apply (delete_user_movie_after_post (C := sample) "alice01"
           "5C3BD189515A081B363CB7E4" store_alice heat alice);
    reflexivity.
Defined.

(** ** Field validation *)

Lemma isLength_false (min : nat) (str : string) :
  isLength min str = false <-> String.length str < min.
Proof. unfold isLength. apply Nat.leb_gt. Qed.

Lemma isEmpty_true (str : string) : isEmpty str = true <-> str = "".
Proof.
  unfold isEmpty. rewrite Nat.eqb_eq. destruct str; simpl; split; congruence.
Qed.

Lemma isAlphanumeric_false (str : string) :
  isAlphanumeric str = false <->
  str = "" \/ exists c, In c (list_ascii_of_string str) /\ alphanumeric c = false.
Proof.
  unfold isAlphanumeric. rewrite andb_false_iff, negb_false_iff, String.eqb_eq.
  apply or_iff_compat_l. split.
  - intros Hf. destruct (forallb_forall alphanumeric (list_ascii_of_string str))
      as [_ Hall].
    destruct (existsb (fun c => negb (alphanumeric c)) (list_ascii_of_string str))
      eqn:E.
    + apply existsb_exists in E as (c & Hc & Hn). exists c.
      now rewrite negb_true_iff in Hn.
    + rewrite Hall in Hf; [discriminate|]. intros c Hc.
      destruct (alphanumeric c) eqn:Ec; [reflexivity|].
      assert (existsb (fun c => negb (alphanumeric c))
                (list_ascii_of_string str) = true) as E'; [|congruence].
      apply existsb_exists. exists c. now rewrite Ec.
  - intros (c & Hc & Hn).
    destruct (forallb alphanumeric (list_ascii_of_string str)) eqn:E;
      [|reflexivity].
    rewrite forallb_forall in E. rewrite (E c Hc) in Hn. discriminate.
Qed.

#[local] Arguments isLength : simpl never.
#[local] Arguments isAlphanumeric : simpl never.
#[local] Arguments isEmpty : simpl never.

Lemma post_users_checks {C : Collaborators} (body : Body.t) :
  validationResult user_checks {| params := []; body := body |} <> []
  <-> rejected_fields body.
Proof.
  unfold rejected_fields, validationResult, user_checks, check, selectFields.
  cbn.
  destruct (isLength 5 (Body.Username body)) eqn:E1.
  2:{ apply isLength_false in E1. cbn. split; [auto | intros _; discriminate]. }
  destruct (isAlphanumeric (Body.Username body)) eqn:E2.
  2:{ cbn. split; [intros _ | intros _; discriminate].
      apply isAlphanumeric_false in E2 as [E2 | E2]; [|auto].
      left. rewrite E2. simpl. lia. }
  unfold not_. destruct (isEmpty (Body.Password body)) eqn:E3.
  { cbn. split; [intros _ | intros _; discriminate].
    apply isEmpty_true in E3. auto. }
  destruct (isEmail (Body.Email body)) eqn:E4.
  2:{ cbn. split; [auto | intros _; discriminate]. }
  cbn. split; [congruence|]. intros [H | [H | [H | H]]].
  - apply isLength_false in H. congruence.
  - assert (isAlphanumeric (Body.Username body) = false); [|congruence].
    apply isAlphanumeric_false. now right.
  - apply isEmpty_true in H. congruence.
  - discriminate.
Qed.

(** ** Registration, branch by branch *)

Lemma post_users_eq {C : Collaborators} (oid : string) (salt : Salt)
  (body : Body.t) (s : Store) :
  post_users oid salt body s
  = match validationResult user_checks {| params := []; body := body |} with
    | (_ :: _) as errors =>
        (Fulfilled {| status := 422; sent := json_errors errors |}, s)
    | [] =>
        match List.find (Users.byUsername (Body.Username body)) (users s) with
        | Some _ =>
            (Fulfilled
               {| status := 409;
                  sent := send (Body.Username body ++ " already exists") |}, s)
        | None =>
            match castBirthday (Body.Birthday body) with
            | inl e =>
                (Fulfilled
                   {| status := 500;
                      sent := send ("Error: " ++ Error_toString e) |}, s)
            | inr d =>
                (Fulfilled
                   {| status := 201;
                      sent := json_user (registered oid salt body d) |},
                 {| users := (users s ++ [registered oid salt body d])%list;
                    movies := movies s |})
            end
        end
    end.
Proof.
  unfold post_users.
  destruct (validationResult _ _) as [|e errors]; [|reflexivity].
  cbn. unfold then_, catch_, Users.findOne, Users.create. cbn.
  destruct (List.find _ (users s)); [reflexivity|].
  destruct (castBirthday (Body.Birthday body)); reflexivity.
Qed.

Lemma find_taken (Username : string) (s : Store) :
  taken Username s <->
  exists u, List.find (Users.byUsername Username) (users s) = Some u.
Proof.
  unfold taken. split.
  - intros (u & Hin & Hu).
    destruct (List.find (Users.byUsername Username) (users s)) as [u'|] eqn:E;
      [now exists u'|].
    apply (find_none _ _ E) in Hin. unfold Users.byUsername in Hin.
    rewrite Hu, String.eqb_refl in Hin. discriminate.
  - intros (u & Hf). apply find_some in Hf as [Hin Hu]. exists u.
    split; [assumption|]. now apply String.eqb_eq.
Qed.

Lemma find_free (Username : string) (s : Store) :
  List.find (Users.byUsername Username) (users s) = None ->
  ~ In Username (map User.Username (users s)).
Proof.
  intros Hf Hin. apply in_map_iff in Hin as (u & Hu & Hin).
  assert (taken Username s) as Ht by (exists u; auto).
  apply find_taken in Ht as (u' & Hu'). congruence.
Qed.

(** ** Duplicate usernames *)

Lemma post_users_unique {C : Collaborators} (oid : string) (salt : Salt)
  (body : Body.t) (s : Store) :
  usernames_unique s -> usernames_unique (snd (post_users oid salt body s)).
Proof.
  unfold usernames_unique. intros Hs. rewrite post_users_eq.
  destruct (validationResult _ _); [|exact Hs].
  destruct (List.find _ (users s)) eqn:Hf; [exact Hs|].
  destruct (castBirthday _); [exact Hs|]. simpl.
  rewrite map_app. apply NoDup_app; [exact Hs | repeat constructor; intros [] |].
  simpl. intros a Ha [<- | []]. now apply (find_free _ _ Hf).
Qed.

(** C6, as the code has it: a registration request that passes field
    validation and whose username is the username of a stored user is
    answered with 409 and the store is left as it was; and registration
    keeps the usernames of the collection pairwise distinct. *)
Theorem post_users_taken {C : Collaborators} (oid : string) (salt : Salt)
  (body : Body.t) (s : Store) :
  validationResult user_checks {| params := []; body := body |} = [] ->
  taken (Body.Username body) s ->
  post_users oid salt body s
    = (Fulfilled
         {| status := 409;
            sent := send (Body.Username body ++ " already exists") |}, s)
  /\ (forall oid' salt' body' s',
        usernames_unique s' ->
        usernames_unique (snd (post_users oid' salt' body' s'))).
Proof.
  intros Hv Ht. split; [|intros; now apply post_users_unique].
  rewrite post_users_eq, Hv. apply find_taken in Ht as (u & ->). reflexivity.
Qed.

Lemma post_users_taken_witness :
  validationResult (user_checks (C := sample))
    {| params := []; body := Body.mk "alice01" "pw" "a@b.com" None |} = []
  /\ taken "alice01" store_alice
  /\ post_users (C := sample) "64b000000000000000000002" "s2"
       (Body.mk "alice01" "pw" "a@b.com" None) store_alice
     = (Fulfilled {| status := 409; sent := send "alice01 already exists" |},
        store_alice).
Proof.
  assert (taken "alice01" store_alice) as Ht.
  { exists alice. split; [left; reflexivity | reflexivity]. }
  split; [reflexivity|]. split; [exact Ht|].
  apply (post_users_taken (C := sample) "64b000000000000000000002" "s2"
           (Body.mk "alice01" "pw" "a@b.com" None) store_alice);
    [reflexivity | exact Ht].
Defined.

(** C6, as the claim states it, fails: the username of the request is the
    username of a stored user, and the answer is 422, not 409, because the
    password is empty. *)
Lemma post_users_taken_invalid :
  taken "alice01" store_alice
  /\ post_users (C := sample) "64b000000000000000000002" "s2"
       (Body.mk "alice01" "" "a@b.com" None) store_alice
     = (Fulfilled
          {| status := 422;
             sent := json_errors
                       [{| value := Some ""; msg := "Password is required";
                           param := "Password"; location := in_body |}] |},
        store_alice)
  /\ status_of (post_users (C := sample) "64b000000000000000000002" "s2"
                  (Body.mk "alice01" "" "a@b.com" None) store_alice)
     <> Some 409.
Proof.
  split; [exists alice; split; [left; reflexivity | reflexivity]|].
  split; [reflexivity | discriminate].
Qed.

(** ** The stored password *)

(** C7: on a successful registration (201) the collection gains one record,
    whose password field is [hashPassword] of the submitted password; for a
    hasher that does not return its input, the field differs from the
    submitted password. *)
Theorem post_users_stores_digest {C : Collaborators} (oid : string)
  (salt : Salt) (body : Body.t) (s s' : Store) (r : Response) :
  post_users oid salt body s = (Fulfilled r, s') ->
  status r = 201 ->
  hashPassword salt (Body.Password body) <> Body.Password body ->
  exists user,
    users s' = (users s ++ [user])%list
    /\ sent r = json_user user
    /\ User.Username user = Body.Username body
    /\ User.Password user = hashPassword salt (Body.Password body)
    /\ User.Password user <> Body.Password body.
Proof.
  rewrite post_users_eq. intros Hr Hst Hh.
  destruct (validationResult _ _);
    [|other_branch Hr].
  destruct (List.find _ (users s)); [other_branch Hr|].
  destruct (castBirthday _) as [e|d]; [other_branch Hr|].
  injection Hr as <- <-. exists (registered oid salt body d).
  repeat split; assumption.
Qed.

Lemma post_users_stores_digest_witness :
  let body := Body.mk "bobby" "pw" "bob@b.com" (Some "12345") in
  let r := post_users (C := sample) "64b000000000000000000002" "s2" body
             store_alice in
  status_of r = Some 201
  /\ exists user,
       users (snd r) = (users store_alice ++ [user])%list
       /\ User.Password user = "$2b$10$s2pw"
       /\ User.Password user <> "pw".
Proof.
  simpl. split; [reflexivity|].
  destruct (post_users_stores_digest (C := sample) "64b000000000000000000002"
              "s2" (Body.mk "bobby" "pw" "bob@b.com" (Some "12345"))
              store_alice
              (snd (post_users (C := sample) "64b000000000000000000002" "s2"
                      (Body.mk "bobby" "pw" "bob@b.com" (Some "12345"))
                      store_alice))
              {| status := 201;
                 sent := json_user
                           (registered (C := sample) "64b000000000000000000002"
                              "s2" (Body.mk "bobby" "pw" "bob@b.com"
                                      (Some "12345")) (Some 12345%Z)) |})
    as (user & Hu & _ & _ & Hp & Hn);
    [reflexivity | reflexivity | discriminate |].
  exists user. repeat split; assumption.
Defined.

(** ** Listing the users *)

(** C9: the listing answers 200 with the stored user documents themselves,
    whole: each with its password field as stored, nothing removed. *)
Theorem get_users_whole (s : Store) :
  get_users s
    = (Fulfilled {| status := 200; sent := json_users (users s) |}, s).
Proof. reflexivity. Qed.

(** X26: The digest stored by a registration is in the listing that follows. *)
Lemma get_users_lists_digest {C : Collaborators} (oid : string) (salt : Salt)
  (body : Body.t) (s s' : Store) (r : Response) :
  post_users oid salt body s = (Fulfilled r, s') ->
  status r = 201 ->
  exists us user,
    fst (get_users s') = Fulfilled {| status := 200; sent := json_users us |}
    /\ In user us
    /\ User.Username user = Body.Username body
    /\ User.Password user = hashPassword salt (Body.Password body).
Proof.
  rewrite post_users_eq. intros Hr Hst.
  destruct (validationResult _ _);
    [|other_branch Hr].
  destruct (List.find _ (users s)); [other_branch Hr|].
  destruct (castBirthday _) as [e|d]; [other_branch Hr|].
  injection Hr as <- <-. exists (users s ++ [registered oid salt body d])%list.
  exists (registered oid salt body d). repeat split.
  apply in_or_app. right. now left.
Qed.

(** ** Profile update, branch by branch *)

Lemma put_user_eq {C : Collaborators} (salt : Salt) (Username : string)
  (body : Body.t) (s : Store) :
  put_user salt Username body s
  = match validationResult user_checks
            {| params := [("Username", Username)]; body := body |} with
    | (_ :: _) as errors =>
        (Fulfilled {| status := 422; sent := json_errors errors |}, s)
    | [] =>
        match List.find (Users.byUsername (Body.Username body)) (users s) with
        | Some _ =>
            (Fulfilled
               {| status := 409;
                  sent := send (Body.Username body ++ " already exists") |}, s)
        | None =>
            match castBirthday (Body.Birthday body) with
            | inl e =>
                (Fulfilled
                   {| status := 500;
                      sent := send ("Error: " ++ Error_toString e) |}, s)
            | inr d =>
                match List.find (Users.byUsername Username) (users s) with
                | None =>
                    (Fulfilled
                       {| status := 404;
                          sent := send ("User " ++ Username ++ " was not found") |},
                     s)
                | Some u =>
                    (Fulfilled
                       {| status := 200;
                          sent := json_user (updated salt body d u) |},
                     {| users := fst (update_first (Users.byUsername Username)
                                        (updated salt body d) (users s));
                        movies := movies s |})
                end
            end
        end
    end.
Proof.
  unfold put_user.
  destruct (validationResult _ _) as [|e errors]; [|reflexivity].
  cbn. unfold then_, catch_, Users.findOne, Users.findOneAndUpdate. cbn.
  destruct (List.find (Users.byUsername (Body.Username body)) (users s));
    [reflexivity|].
  destruct (castBirthday (Body.Birthday body)) as [e|d]; [reflexivity|].
  pose proof (update_first_result (Users.byUsername Username)
                (updated salt body d) (users s)) as Hr.
  pose proof (update_first_missing (Users.byUsername Username)
                (updated salt body d) (users s)) as Hm.
  unfold updated in *.
  destruct (update_first _ _ (users s)) as [us r]. simpl in *. subst r.
  destruct (List.find (Users.byUsername Username) (users s)); simpl;
    [reflexivity|].
  rewrite Hm by reflexivity. now rewrite store_eta.
Qed.

(** The chains of the update read [Username] from the body and from the
    route: both instances have to pass. *)
Lemma put_user_checks {C : Collaborators} (Username : string) (body : Body.t) :
  validationResult user_checks
    {| params := [("Username", Username)]; body := body |} = []
  <-> (isLength 5 (Body.Username body) = true
       /\ isAlphanumeric (Body.Username body) = true
       /\ isEmpty (Body.Password body) = false
       /\ isEmail (Body.Email body) = true)
      /\ isLength 5 Username = true /\ isAlphanumeric Username = true.
Proof.
  unfold validationResult, user_checks, check, selectFields, not_. cbn.
  destruct (isLength 5 (Body.Username body)); cbn;
    [|split; [discriminate | intros [[? _] _]; discriminate]].
  destruct (isLength 5 Username); cbn;
    [|split; [discriminate | intros [_ [? _]]; discriminate]].
  destruct (isAlphanumeric (Body.Username body)); cbn;
    [|split; [discriminate | intros [[_ [? _]] _]; discriminate]].
  destruct (isAlphanumeric Username); cbn;
    [|split; [discriminate | intros [_ [_ ?]]; discriminate]].
  destruct (isEmpty (Body.Password body)); cbn;
    [split; [discriminate | intros [[_ [_ [? _]]] _]; discriminate]|].
  destruct (isEmail (Body.Email body)); cbn;
    [|split; [discriminate | intros [[_ [_ [_ ?]]] _]; discriminate]].
  repeat split.
Qed.

(** C2, as the code has it: an update that passes field validation is
    answered with 409 exactly when some stored user bears the username of the
    request body, the user being updated included; in particular an update in
    which a stored user keeps their own username is answered with 409. *)
Theorem put_user_conflict {C : Collaborators} (salt : Salt)
  (Username : string) (body : Body.t) (s : Store) :
  validationResult user_checks
    {| params := [("Username", Username)]; body := body |} = [] ->
  (status_of (put_user salt Username body s) = Some 409
   <-> taken (Body.Username body) s)
  /\ (Body.Username body = Username ->
      taken Username s ->
      put_user salt Username body s
        = (Fulfilled
             {| status := 409;
                sent := send (Username ++ " already exists") |}, s)).
Proof.
  intros Hv. rewrite put_user_eq, Hv. split.
  - rewrite find_taken.
    destruct (List.find (Users.byUsername (Body.Username body)) (users s))
      as [u|].
    + split; [intros _; now exists u | reflexivity].
    + split; [|intros (u & Hu); discriminate].
      destruct (castBirthday _); [discriminate|].
      destruct (List.find _ (users s)); discriminate.
  - intros -> Ht. apply find_taken in Ht as (u & ->). reflexivity.
Qed.

Lemma put_user_conflict_witness :
  let body := Body.mk "alice01" "pw2" "a@b.com" None in
  validationResult (user_checks (C := sample))
    {| params := [("Username", "alice01")]; body := body |} = []
  /\ (status_of (put_user (C := sample) "s2" "alice01" body store_alice)
      = Some 409
      <-> taken "alice01" store_alice).
Proof.
  simpl. split; [reflexivity|].
  apply (put_user_conflict (C := sample) "s2" "alice01"
           (Body.mk "alice01" "pw2" "a@b.com" None) store_alice).
  reflexivity.
Defined.

(** C2, as the claim states it, fails: alice01 is the only stored user, the
    update keeps her username and passes field validation, and the answer is
    409. *)
Lemma put_user_own_username :
  let body := Body.mk "alice01" "pw2" "a@b.com" None in
  validationResult (user_checks (C := sample))
    {| params := [("Username", "alice01")]; body := body |} = []
  /\ List.find (Users.byUsername "alice01") (users store_alice) = Some alice
  /\ (forall u, In u (users store_alice) -> u = alice)
  /\ put_user (C := sample) "s2" "alice01" body store_alice
     = (Fulfilled {| status := 409; sent := send "alice01 already exists" |},
        store_alice).
Proof.
  simpl. repeat split; try reflexivity.
  intros u [<- | []]. reflexivity.
Qed.

(** C10: a successful update (200) replaces the first record that bears the
    username of the route by a record with the Username, Password, Email and
    Birthday of the request (the password hashed, the birthday cast); the
    identifier and the FavoriteMovies of that record, every other record and
    the catalog are as before. *)
Theorem put_user_frame {C : Collaborators} (salt : Salt) (Username : string)
  (body : Body.t) (s s' : Store) (r : Response) :
  put_user salt Username body s = (Fulfilled r, s') ->
  status r = 200 ->
  exists l1 u l2 u',
    users s = (l1 ++ u :: l2)%list
    /\ Forall (fun x => User.Username x <> Username) l1
    /\ User.Username u = Username
    /\ users s' = (l1 ++ u' :: l2)%list
    /\ movies s' = movies s
    /\ sent r = json_user u'
    /\ (User.Username u' = Body.Username body
        /\ User.Password u' = hashPassword salt (Body.Password body)
        /\ User.Email u' = Body.Email body
        /\ castBirthday (Body.Birthday body) = inr (User.Birthday u'))
    /\ User._id u' = User._id u
    /\ User.FavoriteMovies u' = User.FavoriteMovies u.
Proof.
  rewrite put_user_eq. intros Hr Hst.
  destruct (validationResult _ _); [|other_branch Hr].
  destruct (List.find (Users.byUsername (Body.Username body)) (users s));
    [other_branch Hr|].
  destruct (castBirthday _) as [e|d] eqn:Hd;
    [other_branch Hr|].
  destruct (List.find (Users.byUsername Username) (users s)) as [u|] eqn:Hu;
    [|other_branch Hr].
  injection Hr as <- <-.
  destruct (update_first_split _ (updated salt body d) _ u Hu)
    as (l1 & l2 & Hl & Hl1 & Pu & Hup).
  exists l1, u, l2, (updated salt body d u). simpl. rewrite Hup.
  repeat split; try assumption; try reflexivity.
  - eapply Forall_impl; [|exact Hl1]. unfold Users.byUsername. simpl.
    intros x Hx. now apply String.eqb_neq.
  - now apply String.eqb_eq.
Qed.

Lemma put_user_frame_witness :
  let body := Body.mk "alice02" "pw2" "a2@b.com" (Some "86400000") in
  let r := put_user (C := sample) "s2" "alice01" body store_fan in
  status_of r = Some 200
  /\ exists u',
       users (snd r) = [u']
       /\ User.FavoriteMovies u' = User.FavoriteMovies alice_fan
       /\ User._id u' = User._id alice_fan.
Proof.
  simpl. split; [reflexivity|].
  destruct (put_user_frame (C := sample) "s2" "alice01"
              (Body.mk "alice02" "pw2" "a2@b.com" (Some "86400000")) store_fan
              (snd (put_user (C := sample) "s2" "alice01"
                      (Body.mk "alice02" "pw2" "a2@b.com" (Some "86400000"))
                      store_fan))
              {| status := 200;
                 sent := json_user
                           (updated (C := sample) "s2"
                              (Body.mk "alice02" "pw2" "a2@b.com"
                                 (Some "86400000")) (Some 86400000%Z)
                              alice_fan) |})
    as (l1 & u & l2 & u' & Hs & _ & _ & Hs' & _ & _ & _ & Hid & Hfav);
    [reflexivity | reflexivity |].
  destruct l1 as [|x [|y l1]]; [|destruct l2; discriminate Hs|discriminate Hs].
  injection Hs as <- <-. exists u'. repeat split; assumption.
Defined.

(** ** Tokens *)

Lemma authenticate_issues {K : Auth.Crypto} (ttl t0 : Z) (us : list User.t)
  (username plaintextPassword : string) (tok : Auth.Token) :
  Auth.authenticate ttl t0 us username plaintextPassword = inl tok ->
  tok = Auth.issue ttl t0 username.
Proof.
  unfold Auth.authenticate.
  destruct (List.find _ us) as [u|]; [|discriminate].
  destruct (Auth.verify plaintextPassword (User.Password u)); [|discriminate].
  now intros [= <-].
Qed.

Lemma authorize_accepts {K : Auth.Crypto} (now : Z) (raw : Auth.RawToken)
  (identity : string) :
  Auth.authorize now raw = inl identity <->
  exists t,
    raw = Auth.structured t
    /\ Auth.signature t = Auth.sign (Auth.claims t)
    /\ (now < Auth.expiresAt (Auth.claims t))%Z
    /\ identity = Auth.subject (Auth.claims t).
Proof.
  unfold Auth.authorize. split.
  - destruct raw as [text|t]; [discriminate|].
    destruct (String.eqb_spec (Auth.signature t) (Auth.sign (Auth.claims t)))
      as [Hsig|]; [|discriminate].
    destruct (Z.leb_spec (Auth.expiresAt (Auth.claims t)) now);
      [discriminate|].
    intros [= <-]. exists t. auto.
  - intros (t & -> & Hsig & Hnow & ->).
    rewrite Hsig, String.eqb_refl.
    destruct (Z.leb_spec (Auth.expiresAt (Auth.claims t)) now); [lia|reflexivity].
Qed.

(** C8: a token issued by the Login Service is accepted, with its subject as
    the identity, at every time before its expiry and rejected with
    TokenExpired at every time from its expiry on; and whatever the token,
    the verifier accepts it exactly when it is well formed, its signature
    matches and the current time is before expiresAt. *)
Theorem authorize_issued {K : Auth.Crypto} (ttl t0 now : Z)
  (us : list User.t) (username plaintextPassword : string)
  (tok : Auth.Token) :
  Auth.authenticate ttl t0 us username plaintextPassword = inl tok ->
  ((now < Auth.expiresAt (Auth.claims tok))%Z ->
   Auth.authorize now (Auth.structured tok) = inl username)
  /\ ((Auth.expiresAt (Auth.claims tok) <= now)%Z ->
      Auth.authorize now (Auth.structured tok) = inr Auth.TokenExpired)
  /\ Auth.expiresAt (Auth.claims tok) = (t0 + ttl)%Z
  /\ (forall raw identity,
        Auth.authorize now raw = inl identity <->
        exists t,
          raw = Auth.structured t
          /\ Auth.signature t = Auth.sign (Auth.claims t)
          /\ (now < Auth.expiresAt (Auth.claims t))%Z
          /\ identity = Auth.subject (Auth.claims t)).
Proof.
  intros Ha. apply authenticate_issues in Ha. subst tok.
  unfold Auth.authorize, Auth.issue. simpl. rewrite String.eqb_refl.
  repeat split.
  - intros Hnow. destruct (Z.leb_spec (t0 + ttl) now); [lia|reflexivity].
  - intros Hnow. destruct (Z.leb_spec (t0 + ttl) now); [reflexivity|lia].
  - apply authorize_accepts.
  - apply authorize_accepts.
Qed.

Lemma authorize_issued_witness :
  let tok := Auth.issue (K := sampleCrypto) 3600 1000 "alice01" in
  Auth.authenticate (K := sampleCrypto) 3600 1000 [alice] "alice01" "pw"
    = inl tok
  /\ Auth.authorize (K := sampleCrypto) 4599 (Auth.structured tok)
     = inl "alice01"
  /\ Auth.authorize (K := sampleCrypto) 4600 (Auth.structured tok)
     = inr Auth.TokenExpired.
Proof.
  intros tok. split; [reflexivity|].
  destruct (authorize_issued (K := sampleCrypto) 3600 1000 4599 [alice]
              "alice01" "pw" tok) as (Hbefore & _); [reflexivity|].
  destruct (authorize_issued (K := sampleCrypto) 3600 1000 4600 [alice]
              "alice01" "pw" tok) as (_ & Hafter & _); [reflexivity|].
  split; [apply Hbefore | apply Hafter]; simpl; lia.
Defined.

(** ** Invariants of the users collection *)

Lemma update_first_map {B : Type} (g : User.t -> B) (p : User.t -> bool)
  (f : User.t -> User.t) (l : list User.t) :
  (forall u, g (f u) = g u) ->
  map g (fst (update_first p f l)) = map g l.
Proof.
  intros Hg. induction l as [|x l IH]; simpl; [reflexivity|].
  destruct (p x); simpl; [now rewrite Hg|].
  destruct (update_first p f l). simpl in *. now rewrite IH.
Qed.

Lemma remove_first_split (p : User.t -> bool) (l : list User.t) :
  fst (remove_first p l) = l
  \/ exists l1 u l2, l = (l1 ++ u :: l2)%list
                     /\ fst (remove_first p l) = (l1 ++ l2)%list.
Proof.
  induction l as [|x l IH]; simpl; [now left|].
  destruct (p x); simpl.
  - right. now exists [], x, l.
  - destruct (remove_first p l) as [l' r]. simpl in *.
    destruct IH as [-> | (l1 & u & l2 & -> & ->)]; [now left|].
    right. now exists (x :: l1), u, l2.
Qed.

Lemma pull_NoDup (v : string) (l : list string) : NoDup l -> NoDup (pull v l).
Proof. apply NoDup_filter. Qed.

Lemma favorites_update_unique {C : Collaborators} (Username : string)
  (f : list string -> list string) (s : Store) :
  usernames_unique s ->
  usernames_unique
    {| users := fst (update_first (Users.byUsername Username)
                       (User.onFavoriteMovies f) (users s));
       movies := movies s |}.
Proof.
  unfold usernames_unique. simpl. intros Hs.
  now rewrite (update_first_map User.Username).
Qed.

Lemma favorites_update_sets {C : Collaborators} (Username : string)
  (f : list string -> list string) (s : Store) :
  (forall l, NoDup l -> NoDup (f l)) ->
  favorites_are_sets s ->
  favorites_are_sets
    {| users := fst (update_first (Users.byUsername Username)
                       (User.onFavoriteMovies f) (users s));
       movies := movies s |}.
Proof.
  unfold favorites_are_sets. simpl. intros Hf Hs.
  apply update_first_Forall; [|exact Hs]. intros u. simpl. apply Hf.
Qed.

Lemma handle_unique {C : Collaborators} (c : Call) (s : Store) :
  usernames_unique s -> usernames_unique (snd (handle c s)).
Proof.
  intros Hs. destruct c as [|oid salt body|salt U body|U M|U M|U]; simpl.
  - exact Hs.
  - now apply post_users_unique.
  - rewrite put_user_eq. destruct (validationResult _ _); [|exact Hs].
    destruct (List.find (Users.byUsername (Body.Username body)) (users s))
      eqn:Hfree; [exact Hs|].
    destruct (castBirthday _) as [e|d]; [exact Hs|].
    destruct (List.find (Users.byUsername U) (users s)) as [u|] eqn:Hu;
      [|exact Hs].
    destruct (update_first_split _ (updated salt body d) _ u Hu)
      as (l1 & l2 & Hl & _ & _ & Hup).
    apply find_free in Hfree. unfold usernames_unique in *. simpl.
    rewrite Hup. rewrite Hl, map_app in Hs, Hfree. simpl in Hs, Hfree.
    rewrite map_app. simpl. apply NoDup_remove_1 in Hs as Hs'.
    apply NoDup_Add with (l := (map User.Username l1 ++ map User.Username l2)%list)
                         (a := Body.Username body).
    + apply Add_app.
    + split; [exact Hs'|]. intros Hin. apply Hfree.
      apply in_app_or in Hin as [Hin | Hin]; apply in_or_app;
        [left | right; right]; assumption.
  - rewrite post_user_movie_eq.
    destruct (castObjectId M) as [oid|]; [|exact Hs]. simpl.
    destruct (List.find _ (users s));
      now apply (favorites_update_unique U (addToSet oid)).
  - rewrite delete_user_movie_eq.
    destruct (castObjectId M) as [oid|]; [|exact Hs]. simpl.
    destruct (List.find _ (users s));
      now apply (favorites_update_unique U (pull oid)).
  - unfold delete_user, then_, catch_, Users.findOneAndRemove.
    pose proof (remove_first_split (Users.byUsername U) (users s)) as Hr.
    destruct (remove_first _ (users s)) as [us r]. simpl in Hr.
    assert (usernames_unique {| users := us; movies := movies s |}) as Hus.
    { unfold usernames_unique in *. simpl.
      destruct Hr as [-> | (l1 & u & l2 & Hl & ->)]; [exact Hs|].
      rewrite Hl, map_app in Hs. simpl in Hs. rewrite map_app.
      now apply NoDup_remove_1 in Hs. }
    destruct r; exact Hus.
Qed.

Lemma handle_sets {C : Collaborators} (c : Call) (s : Store) :
  favorites_are_sets s -> favorites_are_sets (snd (handle c s)).
Proof.
  intros Hs. destruct c as [|oid salt body|salt U body|U M|U M|U]; simpl.
  - exact Hs.
  - rewrite post_users_eq. destruct (validationResult _ _); [|exact Hs].
    destruct (List.find _ (users s)); [exact Hs|].
    destruct (castBirthday _) as [e|d]; [exact Hs|].
    unfold favorites_are_sets in *. simpl. apply Forall_app. split; [exact Hs|].
    repeat constructor.
  - rewrite put_user_eq. destruct (validationResult _ _); [|exact Hs].
    destruct (List.find (Users.byUsername (Body.Username body)) (users s));
      [exact Hs|].
    destruct (castBirthday _) as [e|d]; [exact Hs|].
    destruct (List.find (Users.byUsername U) (users s)); [|exact Hs].
    unfold favorites_are_sets in *. simpl.
    apply update_first_Forall; [|exact Hs]. intros u Hu. exact Hu.
  - now apply post_user_movie_sets.
  - rewrite delete_user_movie_eq.
    destruct (castObjectId M) as [oid|]; [|exact Hs]. simpl.
    destruct (List.find _ (users s));
      apply (favorites_update_sets U (pull oid)); try exact Hs;
      apply pull_NoDup.
  - unfold delete_user, then_, catch_, Users.findOneAndRemove.
    pose proof (remove_first_split (Users.byUsername U) (users s)) as Hr.
    destruct (remove_first _ (users s)) as [us r]. simpl in Hr.
    assert (favorites_are_sets {| users := us; movies := movies s |}) as Hus.
    { unfold favorites_are_sets in *. simpl.
      destruct Hr as [-> | (l1 & u & l2 & Hl & ->)]; [exact Hs|].
      rewrite Hl in Hs. apply Forall_app in Hs as [H1 H2].
      apply Forall_app. split; [exact H1|]. now inversion H2. }
    destruct r; exact Hus.
Qed.

(** X22: In every store that requests reach from an empty users collection, the
    usernames are pairwise distinct and no favorites array holds an
    identifier twice. *)
Lemma reachable_invariants {C : Collaborators} (s : Store) :
  reachable s -> usernames_unique s /\ favorites_are_sets s.
Proof.
  induction 1 as [ms | s c Hr [IHu IHf]].
  - split; constructor.
  - split; [now apply handle_unique | now apply handle_sets].
Qed.

(** * Further properties of the routes *)

(** ** Deregistration *)

Lemma remove_first_result (p : User.t -> bool) (l : list User.t) :
  snd (remove_first p l) = List.find p l.
Proof.
  induction l as [|x l IH]; simpl; [reflexivity|].
  destruct (p x); simpl; [reflexivity|].
  destruct (remove_first p l). simpl in *. assumption.
Qed.

Lemma remove_first_missing (p : User.t -> bool) (l : list User.t) :
  List.find p l = None -> fst (remove_first p l) = l.
Proof.
  induction l as [|x l IH]; simpl; [reflexivity|].
  destruct (p x); [discriminate|]. intros Hf. specialize (IH Hf).
  destruct (remove_first p l). simpl in *. now subst.
Qed.

Lemma remove_first_found (p : User.t -> bool) (l : list User.t) (u : User.t) :
  List.find p l = Some u ->
  exists l1 l2,
    l = (l1 ++ u :: l2)%list /\ Forall (fun x => p x = false) l1
    /\ p u = true /\ fst (remove_first p l) = (l1 ++ l2)%list.
Proof.
  induction l as [|x l IH]; simpl; [discriminate|].
  destruct (p x) eqn:Px.
  - intros [= ->]. exists [], l. repeat split; auto.
  - intros Hf. destruct (IH Hf) as (l1 & l2 & -> & Hl1 & Pu & Hrm).
    exists (x :: l1), l2. destruct (remove_first p (l1 ++ u :: l2)).
    simpl in *. subst. repeat split; auto.
Qed.

Lemma delete_user_eq (Username : string) (s : Store) :
  delete_user Username s
  = match userOf Username s with
    | None =>
        (Fulfilled
           {| status := 404; sent := send (Username ++ " was not found") |}, s)
    | Some _ =>
        (Fulfilled
           {| status := 200;
              sent := send ("User " ++ Username ++ " was deleted.") |},
         {| users := fst (remove_first (Users.byUsername Username) (users s));
            movies := movies s |})
    end.
Proof.
  unfold delete_user, then_, catch_, Users.findOneAndRemove, userOf.
  pose proof (remove_first_result (Users.byUsername Username) (users s)) as Hr.
  pose proof (remove_first_missing (Users.byUsername Username) (users s)) as Hm.
  destruct (remove_first _ (users s)) as [us r]. simpl in *. subst r.
  destruct (List.find _ (users s)); [reflexivity|].
  rewrite Hm by reflexivity. now rewrite store_eta.
Qed.

Lemma byUsername_false (Username : string) (l : list User.t) :
  Forall (fun x => Users.byUsername Username x = false) l ->
  ~ In Username (map User.Username l).
Proof.
  intros Hl Hin. apply in_map_iff in Hin as (x & Hx & Hin).
  rewrite Forall_forall in Hl. specialize (Hl x Hin).
  unfold Users.byUsername in Hl. rewrite Hx, String.eqb_refl in Hl.
  discriminate.
Qed.

(** X1: Deregistration of a stored username answers 200 and removes one record,
    the first that bears the username; the records before and after it and
    the catalog stay as they were. *)
Theorem delete_user_removes_first (Username : string) (s : Store) :
  taken Username s ->
  exists l1 u l2,
    users s = (l1 ++ u :: l2)%list
    /\ ~ In Username (map User.Username l1)
    /\ User.Username u = Username
    /\ delete_user Username s
       = (Fulfilled
            {| status := 200;
               sent := send ("User " ++ Username ++ " was deleted.") |},
          {| users := (l1 ++ l2)%list; movies := movies s |}).
Proof.
  intros Ht. apply find_taken in Ht as (u & Hu).
  destruct (remove_first_found _ _ u Hu) as (l1 & l2 & Hl & Hl1 & Pu & Hrm).
  exists l1, u, l2. rewrite delete_user_eq. unfold userOf. rewrite Hu, Hrm.
  repeat split; try assumption.
  - now apply byUsername_false.
  - now apply String.eqb_eq.
Qed.

Lemma delete_user_removes_first_witness :
  taken "alice01" store_alice
  /\ delete_user "alice01" store_alice
     = (Fulfilled {| status := 200; sent := send "User alice01 was deleted." |},
        {| users := []; movies := [heat] |}).
Proof.
  assert (taken "alice01" store_alice) as Ht.
  { exists alice. split; [left; reflexivity | reflexivity]. }
  split; [exact Ht|].
  destruct (delete_user_removes_first "alice01" store_alice Ht)
    as (l1 & u & l2 & Hs & _ & _ & ->).
  destruct l1 as [|x [|y l1]]; [|destruct l2; discriminate Hs|discriminate Hs].
  injection Hs as _ <-. reflexivity.
Defined.

(** X2: Deregistration answers 404 with the store untouched exactly when no stored
    user bears the username. *)
Theorem delete_user_unknown (Username : string) (s : Store) :
  ~ taken Username s
  <-> delete_user Username s
      = (Fulfilled
           {| status := 404; sent := send (Username ++ " was not found") |}, s).
Proof.
  rewrite delete_user_eq, find_taken. fold (userOf Username s).
  destruct (userOf Username s) as [u|].
  - split; [intros H; exfalso; apply H; now exists u | discriminate].
  - split; [reflexivity | intros _ (u & Hu); discriminate].
Qed.

Lemma NoDup_app_middle (x : string) (l1 l2 : list string) :
  NoDup (l1 ++ x :: l2) -> ~ In x (l1 ++ l2).
Proof. apply NoDup_remove_2. Qed.

Lemma delete_user_not_taken (Username : string) (s : Store) :
  usernames_unique s -> ~ taken Username (snd (delete_user Username s)).
Proof.
  unfold usernames_unique. intros Hs. rewrite delete_user_eq. unfold userOf.
  destruct (List.find _ (users s)) as [u|] eqn:Hu; simpl.
  - destruct (remove_first_found _ _ u Hu) as (l1 & l2 & Hl & _ & Pu & Hrm).
    rewrite Hrm. rewrite Hl, map_app in Hs. simpl in Hs.
    apply NoDup_app_middle in Hs. apply String.eqb_eq in Pu. rewrite Pu in Hs.
    intros (x & Hx & Hxu). apply Hs. rewrite <- map_app, <- Hxu.
    now apply in_map.
  - intros Ht. apply find_taken in Ht as (x & Hx). congruence.
Qed.

Lemma post_users_checks_accepted {C : Collaborators} (body : Body.t) :
  validationResult user_checks {| params := []; body := body |} = []
  <-> accepted_fields body.
Proof.
  unfold accepted_fields, validationResult, user_checks, check, selectFields,
    not_. cbn.
  destruct (isLength 5 (Body.Username body)); cbn;
    [|split; [discriminate | intros [? _]; discriminate]].
  destruct (isAlphanumeric (Body.Username body)); cbn;
    [|split; [discriminate | intros [_ [? _]]; discriminate]].
  destruct (isEmpty (Body.Password body)); cbn;
    [split; [discriminate | intros [_ [_ [? _]]]; discriminate]|].
  destruct (isEmail (Body.Email body)); cbn;
    [|split; [discriminate | intros [_ [_ [_ ?]]]; discriminate]].
  repeat split.
Qed.

(** X3: In a store with pairwise distinct usernames, a deregistered username is
    free again: no stored user bears it, and a registration under it whose
    fields pass the checks and whose birthday casts is answered with 201. *)
Theorem delete_user_frees_username {C : Collaborators} (oid : string)
  (salt : Salt) (body : Body.t) (d : option Z) (s : Store) :
  usernames_unique s ->
  accepted_fields body ->
  castBirthday (Body.Birthday body) = inr d ->
  let s' := snd (delete_user (Body.Username body) s) in
  ~ taken (Body.Username body) s'
  /\ post_users oid salt body s'
     = (Fulfilled
          {| status := 201; sent := json_user (registered oid salt body d) |},
        {| users := (users s' ++ [registered oid salt body d])%list;
           movies := movies s' |}).
Proof.
  intros Hs Hv Hd. simpl.
  pose proof (delete_user_not_taken (Body.Username body) s Hs) as Hfree.
  split; [exact Hfree|].
  rewrite post_users_eq. apply post_users_checks_accepted in Hv. rewrite Hv.
  destruct (List.find _ (users (snd (delete_user (Body.Username body) s))))
    as [u|] eqn:Hu.
  - exfalso. apply Hfree. apply find_taken. now exists u.
  - now rewrite Hd.
Qed.

Lemma delete_user_frees_username_witness :
  let s' := snd (delete_user "alice01" store_alice) in
  usernames_unique store_alice
  /\ ~ taken "alice01" s'
  /\ status_of (post_users (C := sample) "64b000000000000000000003" "s3"
                  alice_body s') = Some 201.
Proof.
  assert (usernames_unique store_alice) as Hu.
  { repeat constructor. intros []. }
  destruct (delete_user_frees_username (C := sample)
              "64b000000000000000000003" "s3" alice_body None store_alice Hu)
    as [Hfree Hpost]; [repeat split | reflexivity |].
  intros s'. split; [exact Hu|]. split; [exact Hfree|].
  change (Body.Username alice_body) with "alice01" in Hpost.
  unfold s', status_of. now rewrite Hpost.
Defined.

(** ** Registration, from both sides *)

Lemma post_users_created_store {C : Collaborators} (oid : string)
  (salt : Salt) (body : Body.t) (s : Store) :
  status_of (post_users oid salt body s) = Some 201 ->
  exists d,
    snd (post_users oid salt body s)
    = {| users := (users s ++ [registered oid salt body d])%list;
         movies := movies s |}.
Proof.
  rewrite post_users_eq.
  destruct (validationResult _ _); [|discriminate].
  destruct (List.find _ (users s)); [discriminate|].
  destruct (castBirthday _) as [e|d]; [discriminate|]. now exists d.
Qed.

(** X5: In the store that a registration answered with 201 leaves, a
    registration under the same username whose fields pass the checks is
    answered with 409 and stores nothing. *)
Theorem post_users_again {C : Collaborators} (oid oid' : string)
  (salt salt' : Salt) (body body' : Body.t) (s : Store) :
  status_of (post_users oid salt body s) = Some 201 ->
  accepted_fields body' ->
  Body.Username body' = Body.Username body ->
  let s1 := snd (post_users oid salt body s) in
  post_users oid' salt' body' s1
  = (Fulfilled
       {| status := 409;
          sent := send (Body.Username body ++ " already exists") |}, s1).
Proof.
  intros H201 Hv Hname. simpl.
  destruct (post_users_created_store oid salt body s H201) as (d & ->).
  rewrite post_users_eq. apply post_users_checks_accepted in Hv.
  rewrite Hv, Hname.
  assert (taken (Body.Username body)
            {| users := (users s ++ [registered oid salt body d])%list;
               movies := movies s |}) as Ht.
  { exists (registered oid salt body d). split; [|reflexivity].
    simpl. apply in_or_app. right. now left. }
  apply find_taken in Ht as (u & ->). reflexivity.
Qed.

Lemma post_users_again_witness :
  let s1 := snd (post_users (C := sample) "64b000000000000000000002" "s2"
                   bob_body store_alice) in
  status_of (post_users (C := sample) "64b000000000000000000002" "s2"
               bob_body store_alice) = Some 201
  /\ post_users (C := sample) "64b000000000000000000003" "s3"
       (Body.mk "bobby" "other" "b2@b.com" None) s1
     = (Fulfilled {| status := 409; sent := send "bobby already exists" |}, s1).
Proof.
  split; [reflexivity|].
  apply (post_users_again (C := sample) "64b000000000000000000002"
           "64b000000000000000000003" "s2" "s3" bob_body
           (Body.mk "bobby" "other" "b2@b.com" None) store_alice);
    [reflexivity | repeat split | reflexivity].
Defined.

(** ** What no request does *)

Lemma handle_movies {C : Collaborators} (c : Call) (s : Store) :
  movies (snd (handle c s)) = movies s.
Proof.
  destruct c as [|oid salt body|salt U body|U M|U M|U]; simpl.
  - reflexivity.
  - rewrite post_users_eq. destruct (validationResult _ _); [|reflexivity].
    destruct (List.find _ (users s)); [reflexivity|].
    destruct (castBirthday _); reflexivity.
  - rewrite put_user_eq. destruct (validationResult _ _); [|reflexivity].
    destruct (List.find (Users.byUsername (Body.Username body)) (users s));
      [reflexivity|].
    destruct (castBirthday _); [reflexivity|].
    destruct (List.find _ (users s)); reflexivity.
  - rewrite post_user_movie_eq. destruct (castObjectId M); [|reflexivity].
    simpl. destruct (List.find _ (users s)); reflexivity.
  - rewrite delete_user_movie_eq. destruct (castObjectId M); [|reflexivity].
    simpl. destruct (List.find _ (users s)); reflexivity.
  - rewrite delete_user_eq. destruct (userOf U s); reflexivity.
Qed.

Lemma get_movies_eq (s : Store) :
  get_movies s
  = (Fulfilled {| catalog_status := 200; catalog_sent := json_movies (movies s) |},
     s).
Proof. reflexivity. Qed.

Lemma get_movie_eq (Title : string) (s : Store) :
  get_movie Title s
  = match List.find (byTitle Title) (movies s) with
    | Some m =>
        (Fulfilled
           {| catalog_status := 200;
              catalog_sent := json_string (Movie.Description m) |}, s)
    | None =>
        (Fulfilled
           {| catalog_status := 404;
              catalog_sent :=
                send_text ("The movie " ++ Title ++ " was not found") |}, s)
    end.
Proof.
  unfold get_movie, then_, catch_, Movies_findOne.
  destruct (List.find _ (movies s)); reflexivity.
Qed.

(** X6: No request to the users routes writes the catalog: after any of them
    the catalog is the same, and so are the answers of [GET /movies] and of
    [GET /movies/:Title]. *)
Theorem handle_keeps_catalog {C : Collaborators} (c : Call) (s : Store)
  (Title : string) :
  movies (snd (handle c s)) = movies s
  /\ fst (get_movies (snd (handle c s))) = fst (get_movies s)
  /\ fst (get_movie Title (snd (handle c s))) = fst (get_movie Title s).
Proof.
  pose proof (handle_movies c s) as Hm.
  rewrite !get_movies_eq, !get_movie_eq, Hm. simpl.
  repeat split. destruct (List.find _ (movies s)); reflexivity.
Qed.

(** X7: A request that is answered with an error status (400 or above) leaves
    the store exactly as it was. *)
Theorem handle_failure_keeps_store {C : Collaborators} (c : Call) (s : Store)
  (code : nat) :
  status_of (handle c s) = Some code ->
  400 <= code ->
  snd (handle c s) = s.
Proof.
  destruct c as [|oid salt body|salt U body|U M|U M|U]; simpl.
  - reflexivity.
  - rewrite post_users_eq. destruct (validationResult _ _); [|reflexivity].
    destruct (List.find _ (users s)); [reflexivity|].
    destruct (castBirthday _); [reflexivity|].
    unfold status_of. simpl. intros [= <-]. lia.
  - rewrite put_user_eq. destruct (validationResult _ _); [|reflexivity].
    destruct (List.find (Users.byUsername (Body.Username body)) (users s));
      [reflexivity|].
    destruct (castBirthday _); [reflexivity|].
    destruct (List.find _ (users s)); [|reflexivity].
    unfold status_of. simpl. intros [= <-]. lia.
  - rewrite post_user_movie_eq. unfold favorites_reply.
    destruct (castObjectId M); [|intros; apply store_eta]. simpl.
    destruct (List.find _ (users s)) eqn:Hu.
    + unfold status_of. simpl. intros [= <-]. lia.
    + intros _ _. simpl. rewrite (update_first_missing _ _ _ Hu).
      apply store_eta.
  - rewrite delete_user_movie_eq. unfold favorites_reply.
    destruct (castObjectId M); [|intros; apply store_eta]. simpl.
    destruct (List.find _ (users s)) eqn:Hu.
    + unfold status_of. simpl. intros [= <-]. lia.
    + intros _ _. simpl. rewrite (update_first_missing _ _ _ Hu).
      apply store_eta.
  - rewrite delete_user_eq. destruct (userOf U s); [|reflexivity].
    unfold status_of. simpl. intros [= <-]. lia.
Qed.

Lemma handle_failure_keeps_store_witness :
  status_of (handle (C := sample) (POST_user_movie "carol" "5c3bd189515a081b363cb7e4")
               store_alice) = Some 404
  /\ snd (handle (C := sample)
            (POST_user_movie "carol" "5c3bd189515a081b363cb7e4") store_alice)
     = store_alice.
Proof.
  split; [reflexivity|].
  apply (handle_failure_keeps_store (C := sample)
           (POST_user_movie "carol" "5c3bd189515a081b363cb7e4") store_alice 404);
    [reflexivity | lia].
Defined.


(** ** Favorites as a set *)

Lemma addToSet_iff (v x : string) (l : list string) :
  In x (addToSet v l) <-> In x l \/ x = v.
Proof.
  unfold addToSet. destruct (existsb (String.eqb v) l) eqn:E.
  - split; [auto|]. intros [H | ->]; [assumption|].
    apply existsb_exists in E as (y & Hy & Hv).
    apply String.eqb_eq in Hv. now subst.
  - rewrite in_app_iff. simpl. intuition.
Qed.

Lemma pull_pull (v : string) (l : list string) : pull v (pull v l) = pull v l.
Proof. apply pull_absent. rewrite pull_In. tauto. Qed.

Lemma update_first_other (p q : User.t -> bool) (f : User.t -> User.t)
  (l : list User.t) :
  (forall u, p u = true -> q u = false /\ q (f u) = false) ->
  List.find q (fst (update_first p f l)) = List.find q l.
Proof.
  intros Hpq. induction l as [|x l IH]; simpl; [reflexivity|].
  destruct (p x) eqn:Px; simpl.
  - destruct (Hpq x Px) as [-> ->]. reflexivity.
  - destruct (update_first p f l). simpl in *. now rewrite IH.
Qed.

Lemma update_first_twice (p : User.t -> bool) (f g : User.t -> User.t)
  (l : list User.t) :
  (forall u, p (f u) = p u) ->
  fst (update_first p g (fst (update_first p f l)))
  = fst (update_first p (fun u => g (f u)) l).
Proof.
  intros Hp. induction l as [|x l IH]; simpl; [reflexivity|].
  destruct (p x) eqn:Px; simpl.
  - now rewrite Hp, Px.
  - destruct (update_first p f l) as [l1 r1].
    destruct (update_first p (fun u => g (f u)) l) as [l2 r2].
    simpl in *. rewrite Px. destruct (update_first p g l1). simpl in *.
    now subst.
Qed.

Lemma byUsername_other (U V : string) (f : list string -> list string)
  (u : User.t) :
  V <> U ->
  Users.byUsername U u = true ->
  Users.byUsername V u = false
  /\ Users.byUsername V (User.onFavoriteMovies f u) = false.
Proof.
  unfold Users.byUsername. simpl. intros Hne Hu.
  apply String.eqb_eq in Hu. rewrite Hu.
  split; apply String.eqb_neq; congruence.
Qed.

(** X9: A favorites request for one username leaves the record that any other
    username matches as it was. *)
Theorem favorites_touch_one_user {C : Collaborators}
  (Username Other MovieID : string) (s : Store) :
  Other <> Username ->
  userOf Other (snd (post_user_movie Username MovieID s)) = userOf Other s
  /\ userOf Other (snd (delete_user_movie Username MovieID s))
     = userOf Other s.
Proof.
  intros Hne. rewrite post_user_movie_eq, delete_user_movie_eq.
  unfold favorites_reply, userOf.
  destruct (castObjectId MovieID) as [oid|]; [|split; reflexivity]. simpl.
  split; destruct (List.find (Users.byUsername Username) (users s)); simpl;
    apply update_first_other; intros u; now apply byUsername_other.
Qed.

Lemma favorites_touch_one_user_witness :
  userOf "alice01"
    (snd (post_user_movie (C := sample) "bobby" "5c3bd189515a081b363cb7e4"
            {| users := [alice; registered (C := sample)
                                  "64b000000000000000000002" "s2" bob_body None];
               movies := [heat] |}))
  = Some alice.
Proof.
  apply (favorites_touch_one_user (C := sample) "bobby" "alice01"
           "5c3bd189515a081b363cb7e4").
  discriminate.
Defined.

(** X10: After addFavorite for a stored user and an identifier that casts, the
    matched record holds exactly the identifiers it held and the new one;
    its other fields are as before. *)
Theorem post_user_movie_members {C : Collaborators}
  (Username MovieID oid : string) (s : Store) (u : User.t) :
  castObjectId MovieID = Some oid ->
  userOf Username s = Some u ->
  exists u',
    userOf Username (snd (post_user_movie Username MovieID s)) = Some u'
    /\ (forall x, In x (User.FavoriteMovies u')
                  <-> In x (User.FavoriteMovies u) \/ x = oid)
    /\ User._id u' = User._id u /\ User.Username u' = User.Username u
    /\ User.Password u' = User.Password u /\ User.Email u' = User.Email u
    /\ User.Birthday u' = User.Birthday u.
Proof.
  intros Hc Hu. unfold userOf in *. rewrite post_user_movie_eq, Hc. simpl.
  rewrite Hu. unfold favorites_reply. simpl.
  exists (User.onFavoriteMovies (addToSet oid) u). split.
  - apply update_first_find; [exact Hu|]. apply find_some in Hu. apply Hu.
  - simpl. split; [intros x; apply addToSet_iff | repeat split].
Qed.

Lemma post_user_movie_members_witness :
  exists u',
    userOf "alice01"
      (snd (post_user_movie (C := sample) "alice01" "5C3BD189515A081B363CB7E4"
              store_alice)) = Some u'
    /\ (forall x, In x (User.FavoriteMovies u')
                  <-> In x (User.FavoriteMovies alice)
                      \/ x = "5c3bd189515a081b363cb7e4").
Proof.
  destruct (post_user_movie_members (C := sample) "alice01"
              "5C3BD189515A081B363CB7E4" "5c3bd189515a081b363cb7e4"
              store_alice alice) as (u' & Hu' & Hm & _);
    [reflexivity | reflexivity |].
  exists u'. split; assumption.
Defined.

(** X11: After removeFavorite for a stored user and an identifier that casts, the
    matched record holds exactly the identifiers it held other than that one:
    every occurrence is removed; its other fields are as before. *)
Theorem delete_user_movie_members {C : Collaborators}
  (Username MovieID oid : string) (s : Store) (u : User.t) :
  castObjectId MovieID = Some oid ->
  userOf Username s = Some u ->
  exists u',
    userOf Username (snd (delete_user_movie Username MovieID s)) = Some u'
    /\ (forall x, In x (User.FavoriteMovies u')
                  <-> In x (User.FavoriteMovies u) /\ x <> oid)
    /\ User._id u' = User._id u /\ User.Username u' = User.Username u
    /\ User.Password u' = User.Password u /\ User.Email u' = User.Email u
    /\ User.Birthday u' = User.Birthday u.
Proof.
  intros Hc Hu. unfold userOf in *. rewrite delete_user_movie_eq, Hc. simpl.
  rewrite Hu. unfold favorites_reply. simpl.
  exists (User.onFavoriteMovies (pull oid) u). split.
  - apply update_first_find; [exact Hu|]. apply find_some in Hu. apply Hu.
  - simpl. split; [intros x; apply pull_In | repeat split].
Qed.

Lemma delete_user_movie_members_witness :
  exists u',
    userOf "alice01"
      (snd (delete_user_movie (C := sample) "alice01"
              "5C3BD189515A081B363CB7E4" store_fan)) = Some u'
    /\ User.FavoriteMovies u' = [].
Proof.
  destruct (delete_user_movie_members (C := sample) "alice01"
              "5C3BD189515A081B363CB7E4" "5c3bd189515a081b363cb7e4"
              store_fan alice_fan) as (u' & Hu' & Hm & _);
    [reflexivity | reflexivity |].
  exists u'. split; [exact Hu'|].
  destruct (User.FavoriteMovies u') as [|x l]; [reflexivity|].
  exfalso. destruct (proj1 (Hm x) (or_introl eq_refl)) as [[Hx | []] Hne].
  now apply Hne.
Defined.

(** X12: addFavorite of an identifier that the favorites of the user do not hold,
    followed by removeFavorite of it, gives back the store of the start. *)
Theorem post_then_delete_restores {C : Collaborators}
  (Username MovieID oid : string) (s : Store) (u : User.t) :
  castObjectId MovieID = Some oid ->
  userOf Username s = Some u ->
  ~ In oid (User.FavoriteMovies u) ->
  snd (delete_user_movie Username MovieID
         (snd (post_user_movie Username MovieID s))) = s.
Proof.
  intros Hc Hu Hin. unfold userOf in Hu.
  assert (Users.byUsername Username u = true) as Pu
    by (apply find_some in Hu; apply Hu).
  rewrite (post_user_movie_eq Username MovieID s), Hc. simpl. rewrite Hu.
  unfold favorites_reply. simpl.
  rewrite delete_user_movie_eq, Hc. simpl.
  rewrite (update_first_find (Users.byUsername Username)
             (User.onFavoriteMovies (addToSet oid)) _ u Hu Pu).
  unfold favorites_reply. simpl.
  rewrite update_first_twice by reflexivity.
  rewrite (update_first_fixed _ _ _ u Hu); [apply store_eta|].
  unfold User.onFavoriteMovies. simpl.
  rewrite pull_addToSet, (pull_absent _ _ Hin). now destruct u.
Qed.

Lemma post_then_delete_restores_witness :
  snd (delete_user_movie (C := sample) "alice01" "5c3bd189515a081b363cb7e4"
         (snd (post_user_movie (C := sample) "alice01"
                 "5c3bd189515a081b363cb7e4" store_alice)))
  = store_alice
  /\ snd (post_user_movie (C := sample) "alice01" "5c3bd189515a081b363cb7e4"
            store_alice) = store_fan.
Proof.
  split; [|reflexivity].
  exact (post_then_delete_restores (C := sample) "alice01"
           "5c3bd189515a081b363cb7e4" "5c3bd189515a081b363cb7e4" store_alice
           alice eq_refl eq_refl (fun H : False => H)).
Defined.

(** X14: Calling removeFavorite a second time with the same arguments repeats the
    answer of the first call and changes nothing more. *)
Theorem delete_user_movie_twice {C : Collaborators}
  (Username MovieID : string) (s : Store) :
  let r := delete_user_movie Username MovieID s in
  delete_user_movie Username MovieID (snd r) = (fst r, snd r).
Proof.
  simpl. destruct (castObjectId MovieID) as [oid|] eqn:Hc.
  - destruct (List.find (Users.byUsername Username) (users s)) as [u|] eqn:Hu.
    + destruct (delete_user_movie_found Username MovieID oid s u Hc Hu)
        as (_ & Hfav & _).
      unfold favoritesOf in Hfav.
      destruct (List.find _ (users (snd (delete_user_movie Username MovieID s))))
        as [u'|] eqn:Hu'; [|discriminate]. injection Hfav as Hfav.
      rewrite (delete_user_movie_absent Username MovieID oid _ u' Hc Hu').
      * rewrite delete_user_movie_eq, Hc. simpl. now rewrite Hu.
      * rewrite Hfav, pull_In. tauto.
    + rewrite (delete_user_movie_eq Username MovieID s), Hc. simpl. rewrite Hu.
      unfold favorites_reply. simpl.
      rewrite (update_first_missing _ _ _ Hu), store_eta.
      rewrite delete_user_movie_eq, Hc. simpl. rewrite Hu.
      unfold favorites_reply.
      now rewrite (update_first_missing _ _ _ Hu), store_eta.
  - rewrite (delete_user_movie_eq Username MovieID s), Hc.
    unfold favorites_reply. simpl. rewrite store_eta.
    rewrite delete_user_movie_eq, Hc. unfold favorites_reply.
    now rewrite store_eta.
Qed.

(** X15: Two favorites added in either order leave the user with the same
    identifiers. *)
Theorem post_user_movie_order {C : Collaborators}
  (Username MovieA MovieB a b : string) (s : Store) (u : User.t) :
  castObjectId MovieA = Some a ->
  castObjectId MovieB = Some b ->
  userOf Username s = Some u ->
  exists l l',
    favoritesOf Username
      (snd (post_user_movie Username MovieB
              (snd (post_user_movie Username MovieA s)))) = Some l
    /\ favoritesOf Username
         (snd (post_user_movie Username MovieA
                 (snd (post_user_movie Username MovieB s)))) = Some l'
    /\ forall x, In x l <-> In x l'.
Proof.
  intros Ha Hb Hu. unfold userOf in Hu.
  assert (forall M1 M2 o1 o2,
             castObjectId M1 = Some o1 -> castObjectId M2 = Some o2 ->
             favoritesOf Username
               (snd (post_user_movie Username M2
                       (snd (post_user_movie Username M1 s))))
             = Some (addToSet o2 (addToSet o1 (User.FavoriteMovies u)))) as H2.
  { intros M1 M2 o1 o2 H1 H2.
    destruct (post_user_movie_found Username M1 o1 s u H1 Hu) as (_ & Hf & _).
    unfold favoritesOf in Hf.
    destruct (List.find _ (users (snd (post_user_movie Username M1 s))))
      as [u1|] eqn:Hu1; [|discriminate]. injection Hf as Hf.
    destruct (post_user_movie_found Username M2 o2 _ u1 H2 Hu1) as (_ & Hf2 & _).
    now rewrite Hf2, Hf. }
  exists (addToSet b (addToSet a (User.FavoriteMovies u))),
         (addToSet a (addToSet b (User.FavoriteMovies u))).
  split; [now apply H2|]. split; [now apply H2|].
  intros x. rewrite !addToSet_iff. tauto.
Qed.

Lemma post_user_movie_order_witness :
  exists l l',
    favoritesOf "alice01"
      (snd (post_user_movie (C := sample) "alice01" "0123456789abcdef01234567"
              (snd (post_user_movie (C := sample) "alice01"
                      "5c3bd189515a081b363cb7e4" store_alice)))) = Some l
    /\ favoritesOf "alice01"
         (snd (post_user_movie (C := sample) "alice01"
                 "5c3bd189515a081b363cb7e4"
                 (snd (post_user_movie (C := sample) "alice01"
                         "0123456789abcdef01234567" store_alice)))) = Some l'
    /\ forall x, In x l <-> In x l'.
Proof.
  apply (post_user_movie_order (C := sample) "alice01"
           "5c3bd189515a081b363cb7e4" "0123456789abcdef01234567"
           "5c3bd189515a081b363cb7e4" "0123456789abcdef01234567"
           store_alice alice); reflexivity.
Defined.

(** ** Profile update, from both sides *)

Lemma update_first_renamed (p q : User.t -> bool) (f : User.t -> User.t)
  (l : list User.t) (u : User.t) :
  List.find q l = None -> List.find p l = Some u -> q (f u) = true ->
  List.find q (fst (update_first p f l)) = Some (f u).
Proof.
  induction l as [|x l IH]; simpl; [discriminate|].
  destruct (q x) eqn:Qx; [discriminate|]. intros Hq.
  destruct (p x) eqn:Px.
  - intros [= ->] Hf. simpl. now rewrite Hf.
  - intros Hp Hf. specialize (IH Hq Hp Hf).
    destruct (update_first p f l). simpl in *. now rewrite Qx.
Qed.

(** X16: Every successful update renames: when the answer is 200 the username of
    the body differs from the one of the route and was free, and afterwards
    it matches the record that the route username matched, with the four
    fields set. *)
Theorem put_user_renames {C : Collaborators} (salt : Salt)
  (Username : string) (body : Body.t) (s : Store) :
  status_of (put_user salt Username body s) = Some 200 ->
  Body.Username body <> Username
  /\ ~ taken (Body.Username body) s
  /\ exists u d,
       userOf Username s = Some u
       /\ castBirthday (Body.Birthday body) = inr d
       /\ userOf (Body.Username body) (snd (put_user salt Username body s))
          = Some (updated salt body d u).
Proof.
  rewrite put_user_eq. unfold userOf.
  destruct (validationResult _ _); [|discriminate].
  destruct (List.find (Users.byUsername (Body.Username body)) (users s))
    as [x|] eqn:Hnew; [discriminate|].
  destruct (castBirthday _) as [e|d]; [discriminate|].
  destruct (List.find (Users.byUsername Username) (users s)) as [u|] eqn:Hu;
    [|discriminate].
  intros _. split; [intros Heq; rewrite Heq in Hnew; congruence|].
  split; [intros Ht; apply find_taken in Ht as (x & Hx); congruence|].
  exists u, d. repeat split. simpl.
  apply update_first_renamed; [exact Hnew | exact Hu |].
  unfold Users.byUsername. simpl. apply String.eqb_refl.
Qed.

Lemma put_user_renames_witness :
  let body := Body.mk "alice02" "pw2" "a2@b.com" None in
  status_of (put_user (C := sample) "s2" "alice01" body store_fan) = Some 200
  /\ exists u d,
       userOf "alice01" store_fan = Some u
       /\ userOf "alice02" (snd (put_user (C := sample) "s2" "alice01" body
                                   store_fan))
          = Some (updated (C := sample) "s2" body d u).
Proof.
  intros body. split; [reflexivity|].
  destruct (put_user_renames (C := sample) "s2" "alice01" body store_fan)
    as (_ & _ & u & d & Hu & _ & Hnew); [reflexivity|].
  exists u, d. split; assumption.
Defined.

(** X17: In a store with pairwise distinct usernames, after a successful update
    no stored user bears the username of the route any more. *)
Theorem put_user_frees_username {C : Collaborators} (salt : Salt)
  (Username : string) (body : Body.t) (s : Store) :
  usernames_unique s ->
  status_of (put_user salt Username body s) = Some 200 ->
  ~ taken Username (snd (put_user salt Username body s)).
Proof.
  unfold usernames_unique. intros Hs. rewrite put_user_eq.
  destruct (validationResult _ _); [|discriminate].
  destruct (List.find (Users.byUsername (Body.Username body)) (users s))
    as [x|] eqn:Hnew; [discriminate|].
  destruct (castBirthday _) as [e|d]; [discriminate|].
  destruct (List.find (Users.byUsername Username) (users s)) as [u|] eqn:Hu;
    [|discriminate].
  intros _. simpl.
  destruct (update_first_split _ (updated salt body d) _ u Hu)
    as (l1 & l2 & Hl & Hl1 & Pu & Hup).
  rewrite Hup. rewrite Hl, map_app in Hs. simpl in Hs.
  apply String.eqb_eq in Pu. rewrite Pu in Hs.
  apply NoDup_app_middle in Hs.
  intros (y & Hy & Hyu). simpl in Hy.
  apply in_app_or in Hy as [Hy | [<- | Hy]].
  - apply Hs. apply in_or_app. left. rewrite <- Hyu. now apply in_map.
  - simpl in Hyu. rewrite Hyu in Hnew.
    assert (taken Username s) as Ht.
    { exists u. split; [|exact Pu]. apply find_some in Hu. apply Hu. }
    apply find_taken in Ht as (z & Hz). congruence.
  - apply Hs. apply in_or_app. right. rewrite <- Hyu. now apply in_map.
Qed.

Lemma put_user_frees_username_witness :
  let body := Body.mk "alice02" "pw2" "a2@b.com" None in
  usernames_unique store_fan
  /\ ~ taken "alice01" (snd (put_user (C := sample) "s2" "alice01" body
                               store_fan)).
Proof.
  assert (usernames_unique store_fan) as Hu.
  { repeat constructor. intros []. }
  intros body. split; [exact Hu|].
  apply (put_user_frees_username (C := sample) "s2" "alice01" body store_fan);
    [exact Hu | reflexivity].
Defined.

(** X18: An update is answered with 404 exactly when its fields and the route
    username pass the checks, the username of the body is free, the birthday
    casts, and no stored user bears the username of the route. *)
Theorem put_user_unknown {C : Collaborators} (salt : Salt)
  (Username : string) (body : Body.t) (s : Store) :
  put_user salt Username body s
  = (Fulfilled
       {| status := 404;
          sent := send ("User " ++ Username ++ " was not found") |}, s)
  <-> validationResult user_checks
        {| params := [("Username", Username)]; body := body |} = []
      /\ ~ taken (Body.Username body) s
      /\ (exists d, castBirthday (Body.Birthday body) = inr d)
      /\ ~ taken Username s.
Proof.
  rewrite put_user_eq, !find_taken.
  destruct (validationResult _ _) as [|e errors].
  - destruct (List.find (Users.byUsername (Body.Username body)) (users s))
      as [x|].
    + split; [discriminate|]. intros (_ & H & _). exfalso. apply H. now exists x.
    + destruct (castBirthday _) as [e|d].
      * split; [discriminate|]. intros (_ & _ & (d & Hd) & _). discriminate.
      * destruct (List.find (Users.byUsername Username) (users s)) as [u|].
        -- split; [discriminate|]. intros (_ & _ & _ & H). exfalso. apply H.
           now exists u.
        -- split; [intros _|reflexivity]. split; [reflexivity|].
           split; [intros (x & Hx); discriminate|].
           split; [now exists d | intros (x & Hx); discriminate].
  - split; [discriminate|]. intros (H & _). discriminate.
Qed.

(** ** The catalog *)

(** X20: [GET /movies/:Title] answers 200 exactly when a movie of the catalog
    bears the title and 404 exactly when none does; the store is left as it
    was. *)
Theorem get_movie_status (Title : string) (s : Store) :
  (catalog_status_of (get_movie Title s) = Some 200
   <-> exists m, In m (movies s) /\ Movie.Title m = Title)
  /\ (catalog_status_of (get_movie Title s) = Some 404
      <-> ~ exists m, In m (movies s) /\ Movie.Title m = Title)
  /\ snd (get_movie Title s) = s.
Proof.
  rewrite get_movie_eq. unfold catalog_status_of.
  destruct (List.find (byTitle Title) (movies s)) as [m|] eqn:Hf; simpl.
  - assert (exists m0, In m0 (movies s) /\ Movie.Title m0 = Title) as Hex.
    { apply find_some in Hf as [Hin Ht]. exists m. split; [exact Hin|].
      now apply String.eqb_eq. }
    repeat split; try discriminate; tauto.
  - assert (~ exists m0, In m0 (movies s) /\ Movie.Title m0 = Title) as Hex.
    { intros (m & Hin & Ht). apply (find_none _ _ Hf) in Hin.
      unfold byTitle in Hin. rewrite Ht, String.eqb_refl in Hin. discriminate. }
    repeat split; try discriminate; tauto.
Qed.

(** X21: When several movies bear the title, [GET /movies/:Title] sends the
    description of the first of them in the catalog. *)
Theorem get_movie_first (Title : string) (s : Store) (ms1 ms2 : list Movie.t)
  (m : Movie.t) :
  movies s = (ms1 ++ m :: ms2)%list ->
  Movie.Title m = Title ->
  ~ In Title (map Movie.Title ms1) ->
  get_movie Title s
  = (Fulfilled {| catalog_status := 200;
                  catalog_sent := json_string (Movie.Description m) |}, s).
Proof.
  intros Hs Ht Hnot. rewrite get_movie_eq, Hs.
  assert (List.find (byTitle Title) (ms1 ++ m :: ms2) = Some m) as ->;
    [|reflexivity].
  clear Hs. induction ms1 as [|x ms1 IH]; simpl.
  - unfold byTitle. now rewrite Ht, String.eqb_refl.
  - destruct (byTitle Title x) eqn:Px.
    + exfalso. apply Hnot. left. now apply String.eqb_eq.
    + apply IH. intros Hin. apply Hnot. now right.
Qed.

Lemma get_movie_first_witness :
  let remake := Movie.mk "5c3bd189515a081b363cb7e5" "Heat" "A remake" in
  get_movie "Heat" {| users := []; movies := [heat; remake] |}
  = (Fulfilled {| catalog_status := 200;
                  catalog_sent :=
                    json_string "A group of professional bank robbers" |},
     {| users := []; movies := [heat; remake] |}).
Proof.
  intros remake.
  apply (get_movie_first "Heat" {| users := []; movies := [heat; remake] |}
           [] [remake] heat); [reflexivity | reflexivity | intros []].
Defined.

(** ** What holds in every store that requests reach *)

Lemma handle_Forall {C : Collaborators} (P : User.t -> Prop) :
  (forall oid salt body d,
      accepted_fields body -> P (registered oid salt body d)) ->
  (forall salt body d u,
      accepted_fields body -> P u -> P (updated salt body d u)) ->
  (forall raw oid u,
      castObjectId raw = Some oid -> P u ->
      P (User.onFavoriteMovies (addToSet oid) u)) ->
  (forall oid u, P u -> P (User.onFavoriteMovies (pull oid) u)) ->
  forall c s, Forall P (users s) -> Forall P (users (snd (handle c s))).
Proof.
  intros Hreg Hupd Hadd Hpull c s Hs.
  destruct c as [|oid salt body|salt U body|U M|U M|U]; simpl.
  - exact Hs.
  - rewrite post_users_eq.
    destruct (validationResult _ _) eqn:Hv; [|exact Hs].
    destruct (List.find _ (users s)); [exact Hs|].
    destruct (castBirthday _) as [e|d]; [exact Hs|]. simpl.
    apply Forall_app. split; [exact Hs|]. constructor; [|constructor].
    apply Hreg. now apply post_users_checks_accepted.
  - rewrite put_user_eq.
    destruct (validationResult _ _) eqn:Hv; [|exact Hs].
    destruct (List.find (Users.byUsername (Body.Username body)) (users s));
      [exact Hs|].
    destruct (castBirthday _) as [e|d]; [exact Hs|].
    destruct (List.find (Users.byUsername U) (users s)); [|exact Hs]. simpl.
    apply update_first_Forall; [|exact Hs]. intros u. apply Hupd.
    apply put_user_checks in Hv. apply Hv.
  - rewrite post_user_movie_eq.
    destruct (castObjectId M) as [oid|] eqn:Hc; [|exact Hs]. simpl.
    assert (Forall P (fst (update_first (Users.byUsername U)
                             (User.onFavoriteMovies (addToSet oid)) (users s))))
      as H by (apply update_first_Forall; [intros u; now apply (Hadd M)|exact Hs]).
    destruct (List.find _ (users s)); exact H.
  - rewrite delete_user_movie_eq.
    destruct (castObjectId M) as [oid|] eqn:Hc; [|exact Hs]. simpl.
    assert (Forall P (fst (update_first (Users.byUsername U)
                             (User.onFavoriteMovies (pull oid)) (users s))))
      as H by (apply update_first_Forall; [intros u; apply Hpull|exact Hs]).
    destruct (List.find _ (users s)); exact H.
  - rewrite delete_user_eq. destruct (userOf U s); [|exact Hs]. simpl.
    destruct (remove_first_split (Users.byUsername U) (users s))
      as [-> | (l1 & u & l2 & Hl & ->)]; [exact Hs|].
    rewrite Hl in Hs. apply Forall_app in Hs as [H1 H2].
    apply Forall_app. split; [exact H1|]. now inversion H2.
Qed.

Lemma reachable_Forall {C : Collaborators} (P : User.t -> Prop) :
  (forall oid salt body d,
      accepted_fields body -> P (registered oid salt body d)) ->
  (forall salt body d u,
      accepted_fields body -> P u -> P (updated salt body d u)) ->
  (forall raw oid u,
      castObjectId raw = Some oid -> P u ->
      P (User.onFavoriteMovies (addToSet oid) u)) ->
  (forall oid u, P u -> P (User.onFavoriteMovies (pull oid) u)) ->
  forall s, reachable s -> Forall P (users s).
Proof.
  intros Hreg Hupd Hadd Hpull s. induction 1 as [ms | s c Hr IH].
  - constructor.
  - now apply handle_Forall.
Qed.

(** X23: In every store that requests reach from an empty users collection, every
    password field is an output of [hashPassword]: registration and update
    are the only writers of the field and both store the digest. *)
Theorem reachable_passwords_are_digests {C : Collaborators} (s : Store) :
  reachable s -> passwords_are_digests s.
Proof.
  apply reachable_Forall.
  - intros oid salt body d _. now exists salt, (Body.Password body).
  - intros salt body d u _ _. now exists salt, (Body.Password body).
  - intros raw oid u _ Hu. exact Hu.
  - intros oid u Hu. exact Hu.
Qed.

(** X25: In every store that requests reach from an empty users collection, every
    favorite is an identifier that the schema cast produced; whether a movie
    bears it is not part of the invariant. *)
Theorem reachable_favorites_are_ids {C : Collaborators} (s : Store) :
  reachable s -> favorites_are_ids s.
Proof.
  apply reachable_Forall.
  - intros oid salt body d _. constructor.
  - intros salt body d u _ Hu. exact Hu.
  - intros raw oid u Hc Hu. simpl. apply Forall_forall. intros x Hx.
    apply addToSet_iff in Hx as [Hx | ->]; [|now exists raw].
    rewrite Forall_forall in Hu. now apply Hu.
  - intros oid u Hu. simpl. apply Forall_forall. intros x Hx.
    apply pull_In in Hx as [Hx _]. rewrite Forall_forall in Hu. now apply Hu.
Qed.

Lemma reachable_passwords_are_digests_witness :
  passwords_are_digests (C := sample)
    (snd (handle (C := sample) (POST_user_movie "alice01" "0123456789abcdef01234567")
            (snd (handle (C := sample)
                    (POST_users (C := sample) "64b000000000000000000001" "s1" alice_body)
                    empty_store)))).
Proof.
  apply (reachable_passwords_are_digests (C := sample)).
  do 2 apply reachable_step. apply reachable_start.
Defined.

Lemma reachable_favorites_are_ids_witness :
  favorites_are_ids (C := sample)
    (snd (handle (C := sample) (POST_user_movie "alice01" "0123456789ABCDEF01234567")
            (snd (handle (C := sample)
                    (POST_users (C := sample) "64b000000000000000000001" "s1" alice_body)
                    empty_store)))).
Proof.
  apply (reachable_favorites_are_ids (C := sample)).
  do 2 apply reachable_step. apply reachable_start.
Defined.

Lemma reachable_invariants_witness :
  let s := snd (handle (C := sample)
                  (POST_users (C := sample) "64b000000000000000000002" "s2" bob_body)
                  (snd (handle (C := sample)
                          (POST_users (C := sample) "64b000000000000000000001" "s1" alice_body)
                          empty_store))) in
  usernames_unique s /\ favorites_are_sets s.
Proof.
  intros s. apply (reachable_invariants (C := sample)).
  do 2 apply reachable_step. apply reachable_start.
Defined.

Lemma get_users_lists_digest_witness :
  let s' := snd (post_users (C := sample) "64b000000000000000000002" "s2"
                   bob_body store_alice) in
  exists us user,
    fst (get_users s') = Fulfilled {| status := 200; sent := json_users us |}
    /\ In user us
    /\ User.Username user = "bobby"
    /\ User.Password user = "$2b$10$s2pw".
Proof.
  intros s'.
  apply (get_users_lists_digest (C := sample) "64b000000000000000000002" "s2"
           bob_body store_alice s'
           {| status := 201;
              sent := json_user (registered (C := sample)
                                   "64b000000000000000000002" "s2" bob_body
                                   (Some 12345%Z)) |});
    reflexivity.
Defined.

(** * Validation on the request in full *)

Lemma flat_map_cons_iff {A B : Type} (f : A -> list B) (l : list A) :
  flat_map f l <> [] <-> exists x, In x l /\ f x <> [].
Proof.
  induction l as [|a l IH]; simpl.
  - split; [congruence | intros (x & [] & _)].
  - destruct (f a) as [|b bs] eqn:Ea; simpl.
    + rewrite IH. split.
      * intros (x & Hx & Hf). exists x. auto.
      * intros (x & [<- | Hx] & Hf); [congruence | exists x; auto].
    + split; [intros _ | discriminate].
      exists a. split; [now left | rewrite Ea; discriminate].
Qed.

Lemma full_check_fails (field message : string) (v : Validator)
  (req : Req.t) :
  Full.check field message v req <> [] <-> Full.fails v field req.
Proof.
  unfold Full.check, Full.fails. rewrite flat_map_cons_iff.
  split; intros (i & Hi & H); exists i; (split; [exact Hi|]).
  - destruct (v (toString (Full.found i))); [congruence | reflexivity].
  - rewrite H. discriminate.
Qed.

Lemma full_checks {C : Collaborators} (req : Req.t) :
  Full.validationResult Full.user_checks req <> [] <-> Full.rejected req.
Proof.
  unfold Full.validationResult, Full.rejected. rewrite flat_map_cons_iff.
  unfold Full.user_checks. split.
  - intros (chain & [<- | [<- | [<- | [<- | []]]]] & H);
      apply full_check_fails in H; tauto.
  - intros [H | [H | [H | H]]];
      eapply full_check_fails in H; eexists; (split; [|exact H]);
      simpl; tauto.
Qed.

Lemma full_instance (loc : Location) (field : string) (req : Req.t) :
  defined (Full.found (Full.expandField req field loc)) = true ->
  In (Full.expandField req field loc) (Full.selectFields field req).
Proof.
  intros Hd. unfold Full.selectFields.
  assert (In (Full.expandField req field loc)
            (filter (fun i => defined (Full.found i))
               (map (Full.expandField req field) Full.locations))) as Hin.
  { apply filter_In. split; [|exact Hd]. apply in_map.
    destruct loc; simpl; tauto. }
  destruct (filter _ _); [destruct Hin | exact Hin].
Qed.

Lemma full_body_fails (v : Validator) (field x : string) (req : Req.t) :
  lookup field (Req.body req) = Some x ->
  v x = false ->
  Full.fails v field req.
Proof.
  intros Hl Hv. exists (Full.expandField req field in_body). split.
  - apply full_instance. simpl. now rewrite Hl.
  - simpl. now rewrite Hl.
Qed.

Lemma full_params_fails (v : Validator) (field x : string) (req : Req.t) :
  lookup field (Req.params req) = Some x ->
  v x = false ->
  Full.fails v field req.
Proof.
  intros Hl Hv. exists (Full.expandField req field in_params). split.
  - apply full_instance. simpl. now rewrite Hl.
  - simpl. now rewrite Hl.
Qed.

Lemma short_or_strange (x : string) :
  String.length x < 5
  \/ (exists c, In c (list_ascii_of_string x) /\ alphanumeric c = false) ->
  isLength 5 x = false \/ isAlphanumeric x = false.
Proof.
  intros [H | H].
  - left. now apply isLength_false.
  - right. apply isAlphanumeric_false. now right.
Qed.

Lemma full_body_rejected {C : Collaborators} (req : Req.t) :
  Full.body_rejected req -> Full.rejected req.
Proof.
  unfold Full.body_rejected, Full.rejected.
  intros [(u & Hu & H) | [Hp | (e & He & H)]].
  - apply short_or_strange in H as [H | H].
    + left. now apply (full_body_fails _ _ u).
    + right. left. now apply (full_body_fails _ _ u).
  - right. right. left. now apply (full_body_fails _ _ "").
  - right. right. right. now apply (full_body_fails _ _ e).
Qed.

Lemma post_users_chain_eq {C : Collaborators} (oid : string) (salt : Salt)
  (body : Body.t) (s : Store) :
  post_users_chain oid salt body s
  = match List.find (Users.byUsername (Body.Username body)) (users s) with
    | Some _ =>
        (Fulfilled
           {| status := 409;
              sent := send (Body.Username body ++ " already exists") |}, s)
    | None =>
        match castBirthday (Body.Birthday body) with
        | inl e =>
            (Fulfilled
               {| status := 500;
                  sent := send ("Error: " ++ Error_toString e) |}, s)
        | inr d =>
            (Fulfilled
               {| status := 201;
                  sent := json_user (registered oid salt body d) |},
             {| users := (users s ++ [registered oid salt body d])%list;
                movies := movies s |})
        end
    end.
Proof.
  unfold post_users_chain, then_, catch_, Users.findOne, Users.create. cbn.
  destruct (List.find _ (users s)); [reflexivity|].
  destruct (castBirthday (Body.Birthday body)); reflexivity.
Qed.

Lemma put_user_chain_eq {C : Collaborators} (salt : Salt)
  (Username : string) (body : Body.t) (s : Store) :
  put_user_chain salt Username body s
  = match List.find (Users.byUsername (Body.Username body)) (users s) with
    | Some _ =>
        (Fulfilled
           {| status := 409;
              sent := send (Body.Username body ++ " already exists") |}, s)
    | None =>
        match castBirthday (Body.Birthday body) with
        | inl e =>
            (Fulfilled
               {| status := 500;
                  sent := send ("Error: " ++ Error_toString e) |}, s)
        | inr d =>
            match List.find (Users.byUsername Username) (users s) with
            | None =>
                (Fulfilled
                   {| status := 404;
                      sent := send ("User " ++ Username ++ " was not found") |},
                 s)
            | Some u =>
                (Fulfilled
                   {| status := 200;
                      sent := json_user (updated salt body d u) |},
                 {| users := fst (update_first (Users.byUsername Username)
                                    (updated salt body d) (users s));
                    movies := movies s |})
            end
        end
    end.
Proof.
  unfold put_user_chain, then_, catch_, Users.findOne, Users.findOneAndUpdate.
  cbn.
  destruct (List.find (Users.byUsername (Body.Username body)) (users s));
    [reflexivity|].
  destruct (castBirthday (Body.Birthday body)) as [e|d]; [reflexivity|].
  pose proof (update_first_result (Users.byUsername Username)
                (updated salt body d) (users s)) as Hr.
  pose proof (update_first_missing (Users.byUsername Username)
                (updated salt body d) (users s)) as Hm.
  unfold updated in *.
  destruct (update_first _ _ (users s)) as [us r]. simpl in *. subst r.
  destruct (List.find (Users.byUsername Username) (users s)); simpl;
    [reflexivity|].
  rewrite Hm by reflexivity. now rewrite store_eta.
Qed.

Lemma post_users_chain_not_422 {C : Collaborators} (oid : string)
  (salt : Salt) (body : Body.t) (s : Store) :
  status_of (post_users_chain oid salt body s) <> Some 422.
Proof.
  rewrite post_users_chain_eq.
  destruct (List.find _ (users s)); [discriminate|].
  destruct (castBirthday _); discriminate.
Qed.

Lemma put_user_chain_not_422 {C : Collaborators} (salt : Salt)
  (Username : string) (body : Body.t) (s : Store) :
  status_of (put_user_chain salt Username body s) <> Some 422.
Proof.
  rewrite put_user_chain_eq.
  destruct (List.find (Users.byUsername (Body.Username body)) (users s));
    [discriminate|].
  destruct (castBirthday _); [discriminate|].
  destruct (List.find _ (users s)); discriminate.
Qed.

Lemma full_status_of_some (r : Outcome Response * Store) :
  Full.status_of (Some r) = status_of r.
Proof. destruct r as [[res|e] s]; reflexivity. Qed.

(** The callbacks of the request in the body only are the callbacks of the
    request in full at a request that holds nothing outside its body and
    route. *)
Lemma body_eta (body : Body.t) (ps : list (string * string)) :
  Full.definedBody (Full.of_body ps body) = Some body.
Proof. destruct body as [u p e [b|]]; reflexivity. Qed.

Lemma post_users_of_body {C : Collaborators} (oid : string) (salt : Salt)
  (body : Body.t) (s : Store) :
  Full.post_users oid salt (Full.of_body [] body) s
  = Some (post_users oid salt body s).
Proof.
  unfold Full.post_users, post_users. rewrite body_eta.
  assert (Full.validationResult Full.user_checks (Full.of_body [] body)
          = validationResult user_checks {| params := []; body := body |}) as ->.
  { destruct body as [u p e [b|]]; reflexivity. }
  destruct (validationResult _ _); reflexivity.
Qed.

Lemma put_user_of_body {C : Collaborators} (salt : Salt) (Username : string)
  (body : Body.t) (s : Store) :
  Full.put_user salt (Full.of_body [("Username", Username)] body) s
  = Some (put_user salt Username body s).
Proof.
  unfold Full.put_user, put_user. rewrite body_eta.
  assert (Full.validationResult Full.user_checks
            (Full.of_body [("Username", Username)] body)
          = validationResult user_checks
              {| params := [("Username", Username)]; body := body |}) as ->.
  { destruct body as [u p e [b|]]; reflexivity. }
  assert (lookup "Username" (Req.params
                               (Full.of_body [("Username", Username)] body))
          = Some Username) as -> by reflexivity.
  destruct (validationResult user_checks
              {| params := [("Username", Username)]; body := body |});
    reflexivity.
Qed.

(** C5: on a request with all its locations, registration answers 422 with
    the list of errors and the store untouched exactly when some instance of
    Username is shorter than five characters or not alphanumeric, some
    instance of Password is empty, or some instance of Email is not accepted
    by [isEmail]; in particular whenever the username, password or email of
    the body is such.  A request whose instances all pass is not answered
    with 422. *)
Theorem post_users_request_validation {C : Collaborators} (oid : string)
  (salt : Salt) (req : Req.t) (s : Store) :
  (Full.rejected req
   <-> Full.status_of (Full.post_users oid salt req s) = Some 422)
  /\ (Full.rejected req
      <-> exists errors,
            errors <> [] /\
            Full.post_users oid salt req s
            = Some (Fulfilled {| status := 422; sent := json_errors errors |},
                    s))
  /\ (Full.body_rejected req ->
      exists errors,
        errors <> [] /\
        Full.post_users oid salt req s
        = Some (Fulfilled {| status := 422; sent := json_errors errors |}, s)).
Proof.
  assert (Full.rejected req
          <-> exists errors,
                errors <> [] /\
                Full.post_users oid salt req s
                = Some (Fulfilled
                          {| status := 422; sent := json_errors errors |}, s))
    as Hiff.
  { rewrite <- full_checks. unfold Full.post_users.
    destruct (Full.validationResult Full.user_checks req) as [|e errors].
    - split; [congruence|]. intros (errors & _ & H). simpl in H.
      destruct (Full.definedBody req) as [body|]; [|discriminate].
      injection H as H. exfalso.
      apply (post_users_chain_not_422 oid salt body s).
      unfold status_of. now rewrite H.
    - split; [intros _ | discriminate].
      exists (e :: errors). split; [discriminate | reflexivity]. }
  split; [|split; [exact Hiff|]].
  - rewrite <- full_checks. unfold Full.post_users.
    destruct (Full.validationResult Full.user_checks req) as [|e errors].
    + split; [congruence|]. simpl.
      destruct (Full.definedBody req) as [body|]; [|discriminate].
      rewrite full_status_of_some. intros H.
      now apply post_users_chain_not_422 in H.
    + split; [reflexivity | discriminate].
  - intros Hb. apply Hiff. now apply full_body_rejected.
Qed.

Lemma post_users_request_validation_witness :
  let req := Req.mk [("Username", "bobby"); ("Password", "pw");
                     ("Email", "bob@b.com")] [] [] []
               [("Username", "ab")] in
  Full.rejected (C := sample) req
  /\ Full.status_of (Full.post_users (C := sample) "64b000000000000000000002"
                       "s2" req empty_store) = Some 422.
Proof.
  intros req.
  assert (Full.rejected (C := sample) req) as Hr.
  { left. exists (Full.expandField req "Username" in_query).
    split; [right; left; reflexivity | reflexivity]. }
  split; [exact Hr|].
  now apply (post_users_request_validation (C := sample)
               "64b000000000000000000002" "s2" req empty_store).
Defined.

(** X4: For a request whose body holds Username, Password and Email,
    registration answers 201 exactly when every instance of the validated
    fields, in whichever location, passes its check, no stored user bears
    the username of the body, and the birthday of the body, if given,
    casts. *)
Theorem post_users_request_created {C : Collaborators} (oid : string)
  (salt : Salt) (req : Req.t) (body : Body.t) (s : Store) :
  Full.definedBody req = Some body ->
  (Full.status_of (Full.post_users oid salt req s) = Some 201
   <-> ~ Full.rejected req
       /\ ~ taken (Body.Username body) s
       /\ exists d, castBirthday (Body.Birthday body) = inr d).
Proof.
  intros Hb. rewrite <- full_checks, find_taken. unfold Full.post_users.
  destruct (Full.validationResult Full.user_checks req) as [|e errors].
  - simpl. rewrite Hb, full_status_of_some, post_users_chain_eq.
    destruct (List.find _ (users s)) as [u|].
    + split; [discriminate|]. intros (_ & H & _). exfalso. apply H.
      now exists u.
    + destruct (castBirthday _) as [e|d].
      * split; [discriminate|]. intros (_ & _ & d & Hd). discriminate.
      * split; [intros _|reflexivity]. split; [congruence|].
        split; [intros (u & Hu); discriminate | now exists d].
  - split; [discriminate|]. intros (H & _). exfalso. apply H. discriminate.
Qed.

Lemma post_users_request_created_witness :
  let req := Req.mk [("Username", "bobby"); ("Password", "pw");
                     ("Email", "bob@b.com")] [] [] []
               [("Username", "ab")] in
  Full.definedBody req = Some (Body.mk "bobby" "pw" "bob@b.com" None)
  /\ Full.status_of (Full.post_users (C := sample) "64b000000000000000000002"
                       "s2" req empty_store) <> Some 201.
Proof.
  intros req. split; [reflexivity|]. intros H.
  apply (post_users_request_created (C := sample) "64b000000000000000000002"
           "s2" req (Body.mk "bobby" "pw" "bob@b.com" None) empty_store)
    in H as [Hn _]; [|reflexivity].
  apply Hn. left. exists (Full.expandField req "Username" in_query).
  split; [right; left; reflexivity | reflexivity].
Defined.

(** X19: On a request with all its locations that the route
    [/users/:Username] matches, the update answers 422 exactly when some
    instance of a validated field fails its check; the username of the route
    is one of the instances, so a route username shorter than five characters
    or with a character that is not alphanumeric is answered with 422
    whatever the body holds. *)
Theorem put_user_request_validation {C : Collaborators} (salt : Salt)
  (req : Req.t) (Username : string) (s : Store) :
  lookup "Username" (Req.params req) = Some Username ->
  (Full.rejected req <-> Full.status_of (Full.put_user salt req s) = Some 422)
  /\ (String.length Username < 5
      \/ (exists c, In c (list_ascii_of_string Username)
                    /\ alphanumeric c = false) ->
      Full.status_of (Full.put_user salt req s) = Some 422)
  /\ (Full.status_of (Full.put_user salt req s) = Some 422 ->
      Full.put_user salt req s
      = Some (Fulfilled
                {| status := 422;
                   sent := json_errors
                             (Full.validationResult Full.user_checks req) |},
              s)).
Proof.
  intros Hp.
  assert (Full.rejected req
          <-> Full.status_of (Full.put_user salt req s) = Some 422) as Hiff.
  { rewrite <- full_checks. unfold Full.put_user. rewrite Hp.
    destruct (Full.validationResult Full.user_checks req) as [|e errors].
    - split; [congruence|]. simpl.
      destruct (Full.definedBody req) as [body|]; [|discriminate].
      rewrite full_status_of_some. intros H.
      now apply put_user_chain_not_422 in H.
    - split; [reflexivity | discriminate]. }
  split; [exact Hiff|]. split.
  - intros H. apply Hiff. apply short_or_strange in H as [H | H].
    + left. now apply (full_params_fails _ _ Username).
    + right. left. now apply (full_params_fails _ _ Username).
  - unfold Full.put_user. rewrite Hp.
    destruct (Full.validationResult Full.user_checks req) as [|e errors];
      [|reflexivity].
    simpl. destruct (Full.definedBody req) as [body|]; [|discriminate].
    rewrite full_status_of_some. intros H.
    now apply put_user_chain_not_422 in H.
Qed.

Lemma put_user_request_validation_witness :
  let req := Req.mk [("Username", "bobby"); ("Password", "pw");
                     ("Email", "bob@b.com")] [] [] [("Username", "bob")] [] in
  Full.status_of (Full.put_user (C := sample) "s2" req store_alice) = Some 422.
Proof.
  intros req.
  apply (put_user_request_validation (C := sample) "s2" req "bob" store_alice);
    [reflexivity | left; simpl; lia].
Defined.
